(** * INA226 current/power monitor driver (package [ina226])

    A shallow embedding of the Go driver: the register map, the
    configuration constants, the 16-bit register access over the I2C
    device, the calibration arithmetic and the measurement accessors,
    followed by the properties of the driver that are checked against it.

    - machine integers ([byte], [uint16], [int16]) are [Z] with the
      wrap-around of each conversion written out;
    - [float64] arithmetic is an interface ([Float64]); it is
      interpreted as IEEE 754 binary64 ([binary64], on the primitive
      floats of the kernel), with the results of [math.Log10] and
      [math.Pow] left to the platform;
    - the I2C device of [github.com/saljam/i2c] is an interface
      ([I2CDevice]): a state and two transitions, [Write] and [Read];
    - a method with a pointer receiver is a state transformer on the
      [Ina226] structure; the Go pair [(value, error)] is a pair whose
      second component is an [option error];
    - the example program of [examples/simple_IV_read] is a function
      from the result of opening the device to the list of what the
      program prints, ended by [log.Fatal] when an error is met. *)

From Stdlib Require Import ZArith List Bool Lia QArith Qround.
From Stdlib Require Import Floats Uint63.
From Stdlib Require Import Qabs.
From Stdlib Require String.
Import ListNotations.

#[local] Set Warnings "-inexact-float".
Local Open Scope Z_scope.

(** * Integer conversions *)

(** [byte(x)], [uint16(x)] and [int16(x)] on an integer [x]: the low 8
    (resp. 16) bits, read as unsigned or as two's complement. *)
Definition byte (x : Z) : Z := x mod 256.
Definition uint16 (x : Z) : Z := x mod 65536.
Definition int16 (x : Z) : Z :=
  let u := x mod 65536 in if u <? 32768 then u else u - 65536.

(** * Registers address map *)

Definition CONFIG_REG         : Z := 0x00.
Definition SHUNTVOLTAGE_REG   : Z := 0x01.
Definition BUSVOLTAGE_REG     : Z := 0x02.
Definition POWER_REG          : Z := 0x03.
Definition CURRENT_REG        : Z := 0x04.
Definition CALIBRATION_REG    : Z := 0x05.
Definition MASKENABLE_REG     : Z := 0x06.
Definition ALERTLIMIT_REG     : Z := 0x07.
Definition MANUFACTURERID_REG : Z := 0xFE.
Definition DIEID_REG          : Z := 0xFF.

(** * Configuration register helper constants

    Bit 15 is RST, bits 11..9 AVG, bits 8..6 VBUSCT, bits 5..3 VSHCT and
    bits 2..0 MODE. *)

(* MODE: operating mode (3-bit) *)
Definition INA226_MODE_POWER_DOWN     : Z := 0x00.
Definition INA226_MODE_SHUNT_TRIG     : Z := 0x01.
Definition INA226_MODE_BUS_TRIG       : Z := 0x02.
Definition INA226_MODE_SHUNT_BUS_TRIG : Z := 0x03.
Definition INA226_MODE_ADC_OFF        : Z := 0x04.
Definition INA226_MODE_SHUNT_CONT     : Z := 0x05.
Definition INA226_MODE_BUS_CONT       : Z := 0x06.
Definition INA226_MODE_SHUNT_BUS_CONT : Z := 0x07.

(* VSHCT: shunt voltage conversion time (3-bit) *)
Definition INA226_SHUNT_CONV_TIME_140US  : Z := uint16 (Z.shiftl 0x00 3).
Definition INA226_SHUNT_CONV_TIME_204US  : Z := uint16 (Z.shiftl 0x01 3).
Definition INA226_SHUNT_CONV_TIME_332US  : Z := uint16 (Z.shiftl 0x02 3).
Definition INA226_SHUNT_CONV_TIME_588US  : Z := uint16 (Z.shiftl 0x03 3).
Definition INA226_SHUNT_CONV_TIME_1100US : Z := uint16 (Z.shiftl 0x04 3).
Definition INA226_SHUNT_CONV_TIME_2116US : Z := uint16 (Z.shiftl 0x05 3).
Definition INA226_SHUNT_CONV_TIME_4156US : Z := uint16 (Z.shiftl 0x06 3).
Definition INA226_SHUNT_CONV_TIME_8244US : Z := uint16 (Z.shiftl 0x07 3).

(* VBUSCT: bus voltage conversion time (3-bit) *)
Definition INA226_BUS_CONV_TIME_140US  : Z := uint16 (Z.shiftl 0x00 6).
Definition INA226_BUS_CONV_TIME_204US  : Z := uint16 (Z.shiftl 0x01 6).
Definition INA226_BUS_CONV_TIME_332US  : Z := uint16 (Z.shiftl 0x02 6).
Definition INA226_BUS_CONV_TIME_588US  : Z := uint16 (Z.shiftl 0x03 6).
Definition INA226_BUS_CONV_TIME_1100US : Z := uint16 (Z.shiftl 0x04 6).
Definition INA226_BUS_CONV_TIME_2116US : Z := uint16 (Z.shiftl 0x05 6).
Definition INA226_BUS_CONV_TIME_4156US : Z := uint16 (Z.shiftl 0x06 6).
Definition INA226_BUS_CONV_TIME_8244US : Z := uint16 (Z.shiftl 0x07 6).

(* AVG: averaging mode (3-bit) *)
Definition INA226_AVERAGES_1    : Z := uint16 (Z.shiftl 0x00 9).
Definition INA226_AVERAGES_4    : Z := uint16 (Z.shiftl 0x01 9).
Definition INA226_AVERAGES_16   : Z := uint16 (Z.shiftl 0x02 9).
Definition INA226_AVERAGES_64   : Z := uint16 (Z.shiftl 0x03 9).
Definition INA226_AVERAGES_128  : Z := uint16 (Z.shiftl 0x04 9).
Definition INA226_AVERAGES_256  : Z := uint16 (Z.shiftl 0x05 9).
Definition INA226_AVERAGES_512  : Z := uint16 (Z.shiftl 0x06 9).
Definition INA226_AVERAGES_1024 : Z := uint16 (Z.shiftl 0x07 9).

(* RST bit *)
Definition INA226_RST : Z := uint16 (Z.shiftl 0x01 15).

(** * The [float64] operations the driver uses

    [const q] is the untyped constant [q] converted to [float64];
    [of_int] converts a 16-bit integer, [to_uint16] is the conversion
    [uint16(x)] of a [float64]; [Floor], [Ceil], [Log10] and [Pow] are
    the functions of package [math]. *)
Class Float64 : Type := {
  float64 : Type;
  const : Q -> float64;
  fmul : float64 -> float64 -> float64;
  fdiv : float64 -> float64 -> float64;
  fle : float64 -> float64 -> bool;
  of_int : Z -> float64;
  to_uint16 : float64 -> Z;
  Floor : float64 -> float64;
  Ceil : float64 -> float64;
  Log10 : float64 -> float64;
  Pow : float64 -> float64 -> float64;
  to_uint16_range : forall x, 0 <= to_uint16 x < 65536
}.

(** * The I2C device

    [Write dev buf] returns the number of bytes written, an error code
    when the transfer failed, and the next state of the bus.  [Read dev n]
    is a read into a buffer of [n] bytes: it returns the bytes received,
    the byte count and an error code when the transfer failed. *)
Class I2CDevice : Type := {
  Device : Type;
  Write : Device -> list Z -> (Z * option Z) * Device;
  Read : Device -> nat -> (list Z * Z * option Z) * Device
}.

(** One transaction on the bus, as the driver requested it. *)
Inductive BusOp : Type :=
| OpWrite (buf : list Z)
| OpRead (len : nat).

Section Driver.

Context {FP : Float64} {I2C : I2CDevice}.

(** An [error] value: an error of the device, passed on unchanged, or the
    value built by [errors.New(fmt.Sprintf("rShunt value: %f is not
    correct. Must be greater than 0", rShunt))], kept with the shunt
    value it prints. *)
Inductive error : Type :=
| TransportError (code : Z)
| NotCalibratedError (rShuntValue : float64).

(** The structure [Ina226].  [device] is the state behind the
    [*i2c.Device] pointer; [trace] is a ghost field that records, in
    order, every transaction the driver asked of the device. *)
Record Ina226 : Type := mkIna226 {
  device : Device;
  trace : list BusOp;
  (* calibration variables *)
  rShunt : float64;
  iMax : float64;
  vBusMax : float64;
  vShuntMax : float64
}.

(** ** State passing *)

Definition M (T : Type) : Type := Ina226 -> T * Ina226.

Definition ret {T : Type} (x : T) : M T := fun ina => (x, ina).

Definition bind {T U : Type} (m : M T) (k : T -> M U) : M U :=
  fun ina => let (x, ina') := m ina in k x ina'.

Notation "x <- m ;; k" := (bind m (fun x => k))
  (at level 61, m at next level, right associativity).
Notation "' pat <- m ;; k" := (bind m (fun x => match x with pat => k end))
  (at level 61, pat pattern, m at next level, right associativity).
Notation "m ;;; k" := (bind m (fun _ => k))
  (at level 61, right associativity).

Definition get : M Ina226 := fun ina => (ina, ina).

Definition set_rShunt (v : float64) : M unit := fun ina =>
  (tt, mkIna226 (device ina) (trace ina) v (iMax ina) (vBusMax ina) (vShuntMax ina)).

Definition set_iMax (v : float64) : M unit := fun ina =>
  (tt, mkIna226 (device ina) (trace ina) (rShunt ina) v (vBusMax ina) (vShuntMax ina)).

Definition lift_err (e : option Z) : option error := option_map TransportError e.

(** [ina226.device.Write(buf)] *)
Definition device_Write (buf : list Z) : M (Z * option error) := fun ina =>
  let '((n, err), dev') := Write (device ina) buf in
  ((n, lift_err err),
   mkIna226 dev' (trace ina ++ [OpWrite buf])
            (rShunt ina) (iMax ina) (vBusMax ina) (vShuntMax ina)).

(** The bytes of [data] copied over the front of the buffer [buf]. *)
Fixpoint fill (buf data : list Z) : list Z :=
  match buf, data with
  | _ :: buf', d :: data' => byte d :: fill buf' data'
  | _, _ => buf
  end.

(** [ina226.device.Read(buf)]: returns the buffer as the device left it. *)
Definition device_Read (buf : list Z) : M (list Z * Z * option error) := fun ina =>
  let '((data, n, err), dev') := Read (device ina) (length buf) in
  ((fill buf data, n, lift_err err),
   mkIna226 dev' (trace ina ++ [OpRead (length buf)])
            (rShunt ina) (iMax ina) (vBusMax ina) (vShuntMax ina)).

(** ** The driver *)

(** [New]: [opened] is the result of [i2c.NewDevice(bus, addr)]. *)
Definition New (opened : Device * option Z) : option Ina226 * option error :=
  let (dev, err) := opened in
  match err with
  | Some e => (None, Some (TransportError e))
  | None =>
      (Some (mkIna226 dev [] (const 0) (const 0) (const 0) (const 0)), None)
  end.

(** [buf[i] = v] on a slice (the indices the driver uses are constants
    within the length of the slice). *)
Fixpoint store (buf : list Z) (i : nat) (v : Z) : list Z :=
  match buf, i with
  | [], _ => []
  | _ :: buf', O => v :: buf'
  | b :: buf', S i' => b :: store buf' i' v
  end.

(** [make([]byte, n)] *)
Definition make (n : nat) : list Z := repeat 0 n.

Definition wordToByteArray (w : Z) : list Z :=
  let buf := make 2 in
  let buf := store buf 0 (byte (Z.shiftr w 8)) in
  let buf := store buf 1 (byte w) in
  buf.

Definition Configure (confs : list Z) : M (option error) :=
  let configuration := 0 in
  let configuration :=
    fold_left (fun configuration conf => Z.lor configuration conf)
              confs configuration in
  let buf := [] in
  let buf := buf ++ [CONFIG_REG] in
  let buf := buf ++ wordToByteArray configuration in
  '(_, err) <- device_Write buf ;;
  match err with
  | Some e => ret (Some e)
  | None => ret None
  end.

(** Lines 142-143 of [Calibrate]: the current LSB, in micro-amperes. *)
Definition currentLSB_uA (iMaxValue : float64) : float64 :=
  let currentLSB := fdiv iMaxValue (const 32768) in
  fmul currentLSB (const 1000000).

(** Lines 147-149: the mantissa of the normalized notation, its ceiling,
    multiplied for the exponent. *)
Definition currentLSB_approx (currentLSB : float64) : float64 :=
  let currentLSB_mantissa :=
    fdiv currentLSB (Pow (const 10) (Floor (Log10 currentLSB))) in
  fmul (Ceil currentLSB_mantissa) (Pow (const 10) (Floor (Log10 currentLSB))).

(** Lines 142-150: the approximated current LSB, back in amperes. *)
Definition currentLSB_A (iMaxValue : float64) : float64 :=
  let currentLSB := currentLSB_uA iMaxValue in
  let currentLSB_approx := currentLSB_approx currentLSB in
  fdiv currentLSB_approx (const 1000000).

(** Line 152: the quotient that is converted, and its conversion. *)
Definition calibrationQuotient (rShuntValue iMaxValue : float64) : float64 :=
  fdiv (const 0.00512) (fmul (currentLSB_A iMaxValue) rShuntValue).

Definition calibrationValue (rShuntValue iMaxValue : float64) : Z :=
  to_uint16 (calibrationQuotient rShuntValue iMaxValue).

Definition Calibrate (rShuntValue iMaxValue : float64) : M (option error) :=
  set_rShunt rShuntValue ;;;
  set_iMax iMaxValue ;;;
  ina226 <- get ;;
  let calibrationValue := calibrationValue (rShunt ina226) (iMax ina226) in
  let buf := [] in
  let buf := buf ++ [CALIBRATION_REG] in
  let buf := buf ++ wordToByteArray calibrationValue in
  '(_, err) <- device_Write buf ;;
  match err with
  | Some e => ret (Some e)
  | None => ret None
  end.

Definition Reset : M (option error) :=
  (* reset bit ins in the configure register *)
  let buf := [] in
  let buf := buf ++ [CONFIG_REG] in
  let buf := buf ++ wordToByteArray INA226_RST in
  '(_, err) <- device_Write buf ;;
  match err with
  | Some e => ret (Some e)
  | None => ret None
  end.

Definition readRegister16 (reg : Z) : M (Z * option error) :=
  (* send request to register *)
  '(_, err) <- device_Write [reg] ;;
  match err with
  | Some e => ret (0, Some e)
  | None =>
      (* read the 16 bit register content *)
      let buf := make 2 in
      '(buf, _, err) <- device_Read buf ;;
      match err with
      | Some e => ret (0, Some e)
      | None =>
          let value :=
            Z.lor (uint16 (Z.shiftl (uint16 (nth 0 buf 0)) 8))
                  (uint16 (nth 1 buf 0)) in
          ret (value, None)
      end
  end.

Definition readConfigurationRegister : M (Z * option error) :=
  '(confReg, err) <- readRegister16 CONFIG_REG ;;
  match err with
  | Some e => ret (0, Some e)
  | None => ret (confReg, None)
  end.

Definition readCalibrationRegister : M (Z * option error) :=
  '(calReg, err) <- readRegister16 CALIBRATION_REG ;;
  match err with
  | Some e => ret (0, Some e)
  | None => ret (calReg, None)
  end.

Definition CurrentResolution : M (float64 * option error) :=
  ina226 <- get ;;
  if fle (rShunt ina226) (const 0.0) then
    ret (const 0, Some (NotCalibratedError (rShunt ina226)))
  else
    '(calibration, err) <- readCalibrationRegister ;;
    match err with
    | Some e => ret (const 0, Some e)
    | None =>
        ret (fdiv (const 0.00512) (fmul (of_int calibration) (rShunt ina226)), None)
    end.

Definition ReadManufacturerRegister : M (Z * option error) :=
  '(confReg, err) <- readRegister16 MANUFACTURERID_REG ;;
  match err with
  | Some e => ret (0, Some e)
  | None => ret (confReg, None)
  end.

Definition ReadBusVoltage : M (float64 * option error) :=
  '(voltage, err) <- readRegister16 BUSVOLTAGE_REG ;;
  match err with
  | Some e => ret (const 0, Some e)
  | None => ret (fmul (of_int voltage) (const 1.25), None)
  end.

Definition ReadShuntVoltage : M (float64 * option error) :=
  '(voltage, err) <- readRegister16 SHUNTVOLTAGE_REG ;;
  match err with
  | Some e => ret (const 0, Some e)
  | None => ret (fmul (of_int (int16 voltage)) (const 0.0025), None)
  end.

Definition ReadShuntCurrentRegister : M (Z * option error) :=
  '(currentRaw, err) <- readRegister16 CURRENT_REG ;;
  match err with
  | Some e => ret (0, Some e)
  | None => ret (int16 currentRaw, None)
  end.

Definition ReadShuntCurrent : M (float64 * option error) :=
  '(currentRaw, err) <- ReadShuntCurrentRegister ;;
  match err with
  | Some e => ret (const 0, Some e)
  | None =>
      '(currentResolution, err) <- CurrentResolution ;;
      match err with
      | Some e => ret (const 0, Some e)
      | None => ret (fmul (of_int currentRaw) currentResolution, None)
      end
  end.

End Driver.

Arguments error : clear implicits.
Arguments Ina226 : clear implicits.
Arguments M : clear implicits.

(** * IEEE 754 binary64 *)

(** The exactly representable integer [z] (|z| < 2^53) as a float. *)
Definition float_of_Z (z : Z) : float :=
  match z with
  | Z0 => 0%float
  | Zpos _ => PrimFloat.of_uint63 (Uint63.of_Z z)
  | Zneg p => PrimFloat.opp (PrimFloat.of_uint63 (Uint63.of_Z (Zpos p)))
  end.

(** The rational number a finite float stands for. *)
Definition float_value (x : float) : option Q :=
  match Prim2SF x with
  | S754_zero _ => Some (0 # 1)
  | S754_finite s m e =>
      let n := if s then Zneg m else Zpos m in
      Some (match e with
            | Z0 => n # 1
            | Zpos k => (n * Z.pow_pos 2 k) # 1
            | Zneg k => n # (Pos.pow 2 k)
            end)
  | S754_infinity _ | S754_nan => None
  end.

(** The fraction discarded (truncation towards zero). *)
Definition Qtrunc (q : Q) : Z := Z.quot (Qnum q) (Zpos (Qden q)).

Definition trunc (x : float) : option Z := option_map Qtrunc (float_value x).

(** What the language and its library leave to the platform: the results
    of [math.Log10] and [math.Pow] (pure Go or assembly, fused
    multiply-add or not, depending on the architecture and the release)
    and the result of a float to integer conversion whose value the
    integer type cannot represent. *)
Record Platform : Type := mkPlatform {
  math_Log10 : float -> float;
  math_Pow : float -> float -> float;
  conv_unrepresentable : float -> Z
}.

(** An untyped constant converted to [float64]: the nearest float, here
    the correctly rounded quotient of two exactly representable
    integers. *)
Definition b64_const (q : Q) : float :=
  PrimFloat.div (float_of_Z (Qnum q)) (float_of_Z (Zpos (Qden q))).

(** [uint16(x)]: the fraction is discarded; when the result is not a
    [uint16] the conversion still succeeds, with a value that depends on
    the platform. *)
Definition b64_to_uint16 (P : Platform) (x : float) : Z :=
  uint16 match trunc x with
         | Some z =>
             if (0 <=? z) && (z <? 65536) then z else conv_unrepresentable P x
         | None => conv_unrepresentable P x
         end.

Module Math.

Local Open Scope float_scope.

(** The functions of package [math] whose results IEEE 754 determines. *)

Definition NaN : float := nan.
Definition Inf (sign : Z) : float :=
  if (0 <=? sign)%Z then infinity else neg_infinity.
Definition IsNaN (f : float) : bool := negb (f =? f).
Definition IsInf (f : float) (sign : Z) : bool :=
  ((0 <=? sign)%Z && (f =? infinity)) || ((sign <=? 0)%Z && (f =? neg_infinity)).
Definition Signbit (x : float) : bool :=
  match Prim2SF x with
  | S754_zero s | S754_infinity s | S754_finite s _ _ => s
  | S754_nan => false
  end.
Definition Copysign (f sign : float) : float :=
  if Bool.eqb (Signbit f) (Signbit sign) then f else - f.
Definition Abs (x : float) : float := PrimFloat.abs x.
Definition Sqrt (x : float) : float := PrimFloat.sqrt x.

(** [int(f)] for a value in the range of [int]. *)
Definition int_of_float (f : float) : Z :=
  match trunc f with Some z => z | None => 0%Z end.

(** [f] with the bits below the binary point cleared. *)
Definition clear_fraction (f : float) : float :=
  match Prim2SF f with
  | S754_finite s m (Zneg k) =>
      let n := Z.shiftr (Zpos m) (Zpos k) in
      float_of_Z (if s then (- n)%Z else n)
  | _ => f
  end.

Definition Modf_nonneg (f : float) : float * float :=
  if f <? 1 then
    if f =? 0 then (f, f) else (0, f)
  else
    let int := clear_fraction f in
    (int, f - int).

Definition Modf (f : float) : float * float :=
  if (f <? 1) && (f <? 0) then
    let (int, frac) := Modf_nonneg (- f) in (- int, - frac)
  else Modf_nonneg f.

Definition Floor (x : float) : float :=
  if (x =? 0) || IsNaN x || IsInf x 0 then x
  else if x <? 0 then
    let (d, fract) := Modf (- x) in
    let d := if negb (fract =? 0) then d + 1 else d in
    - d
  else
    let (d, _) := Modf x in d.

Definition Ceil (x : float) : float := - Floor (- x).

Definition Frexp (f : float) : float * Z :=
  if (f =? 0) || IsInf f 0 || IsNaN f then (f, 0%Z) else Z.frexp f.

Definition Ldexp (frac : float) (exp : Z) : float := Z.ldexp frac exp.

End Math.

(** [float64] as IEEE 754 binary64 on the platform [P]. *)
#[export] Instance binary64 (P : Platform) : Float64 := {|
  float64 := float;
  const := b64_const;
  fmul := PrimFloat.mul;
  fdiv := PrimFloat.div;
  fle := PrimFloat.leb;
  of_int := float_of_Z;
  to_uint16 := b64_to_uint16 P;
  Floor := Math.Floor;
  Ceil := Math.Ceil;
  Log10 := math_Log10 P;
  Pow := math_Pow P;
  to_uint16_range := fun x => Z.mod_pos_bound _ 65536 eq_refl
|}.

(** ** A reference platform

    [Log10] and [Pow] as the portable (pure Go, no fused multiply-add)
    sources of package [math] compute them: log.go, log10.go, exp.go and
    pow.go.  It serves to run the driver on concrete inputs; the general
    statements below hold for every platform. *)
Module GoMath.

Import Math.
Local Open Scope float_scope.

Definition Ln2Hi := 6.93147180369123816490e-01. (* 3fe62e42 fee00000 *)
Definition Ln2Lo := 1.90821492927058770002e-10. (* 3dea39ef 35793c76 *)
Definition L1 := 6.666666666666735130e-01.      (* 3FE55555 55555593 *)
Definition L2 := 3.999999999940941908e-01.      (* 3FD99999 9997FA04 *)
Definition L3 := 2.857142874366239149e-01.      (* 3FD24924 94229359 *)
Definition L4 := 2.222219843214978396e-01.      (* 3FCC71C5 1D8E78AF *)
Definition L5 := 1.818357216161805012e-01.      (* 3FC74664 96CB03DE *)
Definition L6 := 1.531383769920937332e-01.      (* 3FC39A09 D078C69F *)
Definition L7 := 1.479819860511658591e-01.      (* 3FC2F112 DF3E5244 *)
Definition Sqrt2 := 1.41421356237309504880168872420969807856967187537694807317667974.
(* The constant expressions [1/Ln2] and [Ln2/Ln10], evaluated exactly
   and then rounded. *)
Definition Log2E := 1.44269504088896340735992468100189214.
Definition Log10_2 := 0.301029995663981195213738894724493026768189881462108541310.

Definition Log (x : float) : float :=
  if IsNaN x || IsInf x 1 then x
  else if x <? 0 then NaN
  else if x =? 0 then Inf (-1)
  else
    (* reduce *)
    let '(f1, ki) := Frexp x in
    let '(f1, ki) :=
      if f1 <? Sqrt2 / 2 then (f1 * 2, (ki - 1)%Z) else (f1, ki) in
    let f := f1 - 1 in
    let k := float_of_Z ki in
    (* compute *)
    let s := f / (2 + f) in
    let s2 := s * s in
    let s4 := s2 * s2 in
    let t1 := s2 * (L1 + s4 * (L3 + s4 * (L5 + s4 * L7))) in
    let t2 := s4 * (L2 + s4 * (L4 + s4 * L6)) in
    let R := t1 + t2 in
    let hfsq := 0.5 * f * f in
    k * Ln2Hi - ((hfsq - (s * (hfsq + R) + k * Ln2Lo)) - f).

Definition Log2 (x : float) : float :=
  let '(frac, exp) := Frexp x in
  (* Make sure exact powers of two give an exact answer. *)
  if frac =? 0.5 then float_of_Z (exp - 1)
  else Log frac * Log2E + float_of_Z exp.

Definition Log10 (x : float) : float := Log2 x * Log10_2.

Definition P1 := 1.66666666666666657415e-01.   (* 0x3FC55555; 0x55555555 *)
Definition P2 := -2.77777777770155933842e-03.  (* 0xBF66C16C; 0x16BEBD93 *)
Definition P3 := 6.61375632143793436117e-05.   (* 0x3F11566A; 0xAF25DE2C *)
Definition P4 := -1.65339022054652515390e-06.  (* 0xBEBBBD41; 0xC5D26BF1 *)
Definition P5 := 4.13813679705723846039e-08.   (* 0x3E663769; 0x72BEA4D0 *)

Definition expmulti (hi lo : float) (k : Z) : float :=
  let r := hi - lo in
  let t := r * r in
  let c := r - t * (P1 + t * (P2 + t * (P3 + t * (P4 + t * P5)))) in
  let y := 1 - ((lo - (r * c) / (2 - c)) - hi) in
  Ldexp y k.

Definition Overflow := 7.09782712893383973096e+02.
Definition Underflow := -7.45133219101941108420e+02.
Definition NearZero := 1.0 / 268435456. (* 2**-28 *)

Definition Exp (x : float) : float :=
  if IsNaN x || IsInf x 1 then x
  else if IsInf x (-1) then 0
  else if Overflow <? x then Inf 1
  else if x <? Underflow then 0
  else if (- NearZero <? x) && (x <? NearZero) then 1 + x
  else
    (* reduce; computed as r = hi - lo for extra precision. *)
    let k :=
      if x <? 0 then int_of_float (Log2E * x - 0.5)
      else if 0 <? x then int_of_float (Log2E * x + 0.5)
      else 0%Z in
    let hi := x - float_of_Z k * Ln2Hi in
    let lo := float_of_Z k * Ln2Lo in
    expmulti hi lo k.

Definition isOddInt (x : float) : bool :=
  if 9007199254740992 <=? Abs x then false
  else
    let (xi, xf) := Modf x in
    (xf =? 0) && Z.odd (int_of_float xi).

(** The case [x == 0] of [Pow]. *)
Definition pow_zero (x y : float) : float :=
  if y <? 0 then
    if Signbit x && isOddInt y then Copysign (Inf 1) x else Inf 1
  else if 0 <? y then
    if Signbit x && isOddInt y then x else 0
  else NaN.

(** The loop [for i := int64(yi); i != 0; i >>= 1] of [Pow], on the
    binary digits of [i]. *)
Fixpoint pow_loop (i : positive) (a1 : float) (ae : Z) (x1 : float) (xe : Z)
  : float * Z :=
  if (xe <? -4096)%Z || (4096 <? xe)%Z then
    (* overflow: catch xe before it overflows the left shift below *)
    (a1, (ae + xe)%Z)
  else
    let '(a1, ae) :=
      match i with
      | xO _ => (a1, ae)
      | _ => (a1 * x1, (ae + xe)%Z)
      end in
    let x1 := x1 * x1 in
    let xe := Z.shiftl xe 1 in
    let '(x1, xe) := if x1 <? 0.5 then (x1 + x1, (xe - 1)%Z) else (x1, xe) in
    match i with
    | xH => (a1, ae)
    | xO i' | xI i' => pow_loop i' a1 ae x1 xe
    end.

Definition Pow (x y : float) : float :=
  if (y =? 0) || (x =? 1) then 1
  else if y =? 1 then x
  else if IsNaN x || IsNaN y then NaN
  else if x =? 0 then pow_zero x y
  else if IsInf y 0 then
    if x =? -1 then 1
    else if Bool.eqb (Abs x <? 1) (IsInf y 1) then 0
    else Inf 1
  else if IsInf x 0 then
    if IsInf x (-1) then
      (* Pow(1/x, -y), that is Pow(-0, -y) *)
      if - y =? 1 then 1 / x else pow_zero (1 / x) (- y)
    else if y <? 0 then 0
    else Inf 1
  else if y =? 0.5 then Sqrt x
  else if y =? -0.5 then 1 / Sqrt x
  else
    let (yi, yf) := Modf (Abs y) in
    if negb (yf =? 0) && (x <? 0) then NaN
    else if 9223372036854775808 <=? yi then
      (* yi is a large even int that will lead to overflow (or underflow
         to 0) for all x except -1 (x == 1 was handled earlier) *)
      if x =? -1 then 1
      else if Bool.eqb (Abs x <? 1) (0 <? y) then 0
      else Inf 1
    else
      (* ans = a1 * 2**ae (= 1 for now). *)
      let a1 := 1 in
      let ae := 0%Z in
      (* ans *= x**yf *)
      let '(yi, a1) :=
        if negb (yf =? 0) then
          let '(yf, yi) := if 0.5 <? yf then (yf - 1, yi + 1) else (yf, yi) in
          (yi, Exp (yf * Log x))
        else (yi, a1) in
      (* ans *= x**yi *)
      let '(x1, xe) := Frexp x in
      let '(a1, ae) :=
        match int_of_float yi with
        | Zpos i => pow_loop i a1 ae x1 xe
        | _ => (a1, ae)
        end in
      (* ans = a1 * 2**ae; if y < 0 { ans = 1 / ans }, but in the opposite
         order for subnormal ok *)
      let '(a1, ae) := if y <? 0 then (1 / a1, (- ae)%Z) else (a1, ae) in
      Ldexp a1 ae.

(** An unrepresentable value converts to 0 here; a platform may give any
    other value. *)
Definition platform : Platform := mkPlatform Log10 Pow (fun _ => 0%Z).

End GoMath.

(** * A scripted chip

    A device for running the driver: sixteen-bit registers behind a
    register pointer, as the wire format has them, and a script of
    faults, one entry per transaction ([true]: the transfer fails with
    the error code 5). *)
Module Chip.

Record state : Type := mk {
  regs : Z -> Z;
  pointer : Z;
  faults : list bool
}.

Definition next_fault (s : state) : bool * list bool :=
  match faults s with
  | [] => (false, [])
  | f :: fs => (f, fs)
  end.

Definition write (s : state) (buf : list Z) : (Z * option Z) * state :=
  let (fault, fs) := next_fault s in
  if fault then ((0, Some 5), mk (regs s) (pointer s) fs)
  else
    match buf with
    | [reg] => ((1, None), mk (regs s) reg fs)
    | [reg; hi; lo] =>
        ((3, None),
         mk (fun r => if r =? reg then hi * 256 + lo else regs s r) reg fs)
    | _ => ((Z.of_nat (length buf), None), mk (regs s) (pointer s) fs)
    end.

Definition read (s : state) (n : nat) : (list Z * Z * option Z) * state :=
  let (fault, fs) := next_fault s in
  if fault then (([], 0, Some 5), mk (regs s) (pointer s) fs)
  else
    let v := regs s (pointer s) in
    ((firstn n [v / 256; v mod 256], Z.of_nat (Nat.min n 2), None),
     mk (regs s) (pointer s) fs).

(** A chip whose registers all hold [v]. *)
Definition holding (v : Z) (faults : list bool) : state :=
  mk (fun _ => v) 0 faults.

End Chip.

#[export] Instance chip : I2CDevice := {|
  Device := Chip.state;
  Write := Chip.write;
  Read := Chip.read
|}.

(** * Vocabulary of the properties *)

(** ** The fields of the configuration word *)

Inductive Field : Type := MODE | VSHCT | VBUSCT | AVG.

Definition Field_eqb (f g : Field) : bool :=
  match f, g with
  | MODE, MODE | VSHCT, VSHCT | VBUSCT, VBUSCT | AVG, AVG => true
  | _, _ => false
  end.

(** The helper constants of each field. *)
Definition constants (f : Field) : list Z :=
  match f with
  | MODE =>
      [INA226_MODE_POWER_DOWN; INA226_MODE_SHUNT_TRIG; INA226_MODE_BUS_TRIG;
       INA226_MODE_SHUNT_BUS_TRIG; INA226_MODE_ADC_OFF; INA226_MODE_SHUNT_CONT;
       INA226_MODE_BUS_CONT; INA226_MODE_SHUNT_BUS_CONT]
  | VSHCT =>
      [INA226_SHUNT_CONV_TIME_140US; INA226_SHUNT_CONV_TIME_204US;
       INA226_SHUNT_CONV_TIME_332US; INA226_SHUNT_CONV_TIME_588US;
       INA226_SHUNT_CONV_TIME_1100US; INA226_SHUNT_CONV_TIME_2116US;
       INA226_SHUNT_CONV_TIME_4156US; INA226_SHUNT_CONV_TIME_8244US]
  | VBUSCT =>
      [INA226_BUS_CONV_TIME_140US; INA226_BUS_CONV_TIME_204US;
       INA226_BUS_CONV_TIME_332US; INA226_BUS_CONV_TIME_588US;
       INA226_BUS_CONV_TIME_1100US; INA226_BUS_CONV_TIME_2116US;
       INA226_BUS_CONV_TIME_4156US; INA226_BUS_CONV_TIME_8244US]
  | AVG =>
      [INA226_AVERAGES_1; INA226_AVERAGES_4; INA226_AVERAGES_16;
       INA226_AVERAGES_64; INA226_AVERAGES_128; INA226_AVERAGES_256;
       INA226_AVERAGES_512; INA226_AVERAGES_1024]
  end.

(** The bits of each field in the register (see the layout above the
    constants): MODE 2..0, VSHCT 5..3, VBUSCT 8..6, AVG 11..9. *)
Definition field_mask (f : Field) : Z :=
  match f with
  | MODE => 0x0007
  | VSHCT => 0x0038
  | VBUSCT => 0x01C0
  | AVG => 0x0E00
  end.

Definition field_bits (f : Field) (w : Z) : Z := Z.land w (field_mask f).

(** An option passed to [Configure]: a helper constant with the field it
    belongs to (the constants for level 0 of the four fields are the same
    number). *)
Definition supported (o : Field * Z) : Prop := In (snd o) (constants (fst o)).

(** The constants supplied for the field [f], in the order of the call. *)
Definition supplied (f : Field) (opts : list (Field * Z)) : list Z :=
  map snd (filter (fun o => Field_eqb (fst o) f) opts).

(** The sixteen-bit word of a write [address, high byte, low byte]. *)
Definition word_of (hi lo : Z) : Z := Z.lor (Z.shiftl hi 8) lo.

(** ** Rounding to the nearest integer

    Follows the words of the specification ("rounded to the nearest
    unsigned 16-bit integer", [round_to_uint16]), for comparison with the
    conversion of line 152. *)
Definition round_to_uint16 (x : float) : option Z :=
  match float_value x with
  | Some q =>
      let z := Qfloor (q + (1 # 2)) in
      if (0 <=? z) && (z <? 65536) then Some z else None
  | None => None
  end.

(** ** The decimal-order approximation *)

Section Approximation.

Context {FP : Float64}.

(** [10^k] for [k] the floor of the decimal logarithm of [L], as line 147
    computes it. *)
Definition decimal_order (L : float64) : float64 :=
  Pow (const 10) (Floor (Log10 L)).

(** [approx] is the smallest of the values [d * 10^k], [1 <= d <= dmax],
    that are greater than or equal to [L]. *)
Definition smallest_multiple (dmax : Z) (L approx : float64) : Prop :=
  exists d : Z,
    1 <= d <= dmax /\
    approx = fmul (of_int d) (decimal_order L) /\
    fle L approx = true /\
    forall d' : Z,
      1 <= d' <= dmax ->
      fle L (fmul (of_int d') (decimal_order L)) = true ->
      fle approx (fmul (of_int d') (decimal_order L)) = true.

End Approximation.

(** ** The outcomes of a register read *)

Section Outcome.

Context {FP : Float64} {I2C : I2CDevice}.

(** What [readRegister16 reg] can return from the handle [ina], with the
    transactions it adds to the trace: the address write failed; the
    address was written and the read failed; or both went through and a
    sixteen-bit value comes back.  A failure is an error of the device. *)
Inductive read_outcome (reg : Z) (ina : Ina226 FP I2C)
  : Z * option (error FP) * Ina226 FP I2C -> Prop :=
| read_write_failed (code : Z) (ina' : Ina226 FP I2C) :
    trace ina' = trace ina ++ [OpWrite [reg]] ->
    read_outcome reg ina ((0, Some (TransportError code)), ina')
| read_read_failed (code : Z) (ina' : Ina226 FP I2C) :
    trace ina' = trace ina ++ [OpWrite [reg]; OpRead 2] ->
    read_outcome reg ina ((0, Some (TransportError code)), ina')
| read_done (v : Z) (ina' : Ina226 FP I2C) :
    0 <= v < 65536 ->
    trace ina' = trace ina ++ [OpWrite [reg]; OpRead 2] ->
    read_outcome reg ina ((v, None), ina').

End Outcome.

(** ** Concrete inputs *)

(** A handle on the scripted chip, on the reference platform: every
    register holds [v], the stored shunt resistance is [r]. *)
Definition handle (v : Z) (faults : list bool) (r : float)
  : Ina226 (binary64 GoMath.platform) chip :=
  @mkIna226 (binary64 GoMath.platform) chip
    (Chip.holding v faults) [] r 0%float 0%float 0%float.

(** The options of the example program. *)
Definition example_options : list (Field * Z) :=
  [(VSHCT, INA226_SHUNT_CONV_TIME_1100US); (VBUSCT, INA226_BUS_CONV_TIME_1100US);
   (AVG, INA226_AVERAGES_1); (MODE, INA226_MODE_SHUNT_BUS_CONT)].

(** The exact value of the binary64 quotient of line 152 for a shunt of
    0.015 ohm and a maximum current of 0.5 A (17066.666...). *)
Definition example_quotient : Q := 4691249611844266 # 274877906944.

(** ** The calibration variables *)

(** The calibration variables of the handle. *)
Definition calibration {FP : Float64} {I2C : I2CDevice} (ina : Ina226 FP I2C)
  : float64 * float64 * float64 * float64 :=
  (rShunt ina, iMax ina, vBusMax ina, vShuntMax ina).

(** ** The errors of the transport *)

(** [e] is an error that the I2C library returned. *)
Definition transport {FP : Float64} (e : error FP) : Prop :=
  exists code : Z, e = TransportError code.

(** ** Checks over all values of a register *)

(** [p] holds of every value whose bits above the [k] lowest are those
    of [prefix]: with [k = 16] and [prefix = 0], of every value of a
    sixteen-bit register. *)
Fixpoint for_all_bits (k : nat) (p : Z -> bool) (prefix : Z) : bool :=
  match k with
  | O => p prefix
  | S k' => for_all_bits k' p (2 * prefix) && for_all_bits k' p (2 * prefix + 1)
  end.

(** The product of line 235 is the rational [1.25 * v], without rounding. *)
Definition bus_voltage_exact (v : Z) : bool :=
  match float_value (PrimFloat.mul (float_of_Z v) 1.25) with
  | Some q => Qeq_bool q (5 * v # 4)
  | None => false
  end.

(** The product of line 243 for the raw value [v]: a finite value between
    the floats -81.92 and 81.9175, within [2^-52] (relative) of
    [int16(v) / 400]. *)
Definition shunt_voltage_close (v : Z) : bool :=
  let n := int16 v in
  let x := PrimFloat.mul (float_of_Z n) 0.0025 in
  PrimFloat.leb (-81.92) x && PrimFloat.leb x 81.9175 &&
  match float_value x with
  | Some q =>
      Qle_bool (Qabs (q - (n # 400)))
               ((Z.abs n # 400) * (1 # 4503599627370496))
  | None => false
  end.

(** * The example program *)

Section Example.

Import String.
Local Open Scope string_scope.

Variable P : Platform.
Context {I2C : I2CDevice}.

Local Abbreviation FP := (binary64 P).

(** What the example program does besides driving the chip: a call of
    [fmt.Printf] with its format and its argument, the call of
    [fmt.Println], and [log.Fatal], which ends the program. *)
Inductive Event : Type :=
| Printf (format : string) (a : float)
| Println (text : string) (a : Z)
| Fatal (err : error FP).

(** [main] of examples/simple_IV_read; [opened] is the result of
    [i2c.NewDevice(1, 0x40)].  [checkError] is written out: an error ends
    the run with [Fatal].  [New] returns a handle or an error, the case
    of neither is there for the match to be complete. *)
Definition main (opened : Device * option Z) : list Event :=
  match New (FP := FP) opened with
  | (_, Some err) => [Fatal err]
  | (None, None) => []
  | (Some currentSensor, None) =>
  let '(err, currentSensor) :=
    Configure [INA226_SHUNT_CONV_TIME_1100US; INA226_BUS_CONV_TIME_1100US;
               INA226_AVERAGES_1; INA226_MODE_SHUNT_BUS_CONT] currentSensor in
  match err with Some err => [Fatal err] | None =>
  (* measure the power rail voltage *)
  let '((vBus, err), currentSensor) := ReadBusVoltage currentSensor in
  match err with Some err => [Fatal err] | None =>
  Printf "Bus voltage: %2.5f V\n" vBus ::
  (* measure the voltage drop across the shunt resistor *)
  let '((vShunt, err), currentSensor) := ReadShuntVoltage currentSensor in
  match err with Some err => [Fatal err] | None =>
  Printf "Shunt voltage: %2.5f V\n" vShunt ::
  let '(_, currentSensor) :=
    Calibrate (0.01%float : @float64 FP) 0.5%float currentSensor in
  (* read back the resolution *)
  let '((iResolution, err), currentSensor) := CurrentResolution currentSensor in
  match err with Some err => [Fatal err] | None =>
  Printf "Current resolution: %2.5f A/bit\n" iResolution ::
  let '((iRegister, err), currentSensor) :=
    ReadShuntCurrentRegister currentSensor in
  match err with Some err => [Fatal err] | None =>
  Println "Shunt current register:" iRegister ::
  let '((iShunt, err), currentSensor) := ReadShuntCurrent currentSensor in
  match err with Some err => [Fatal err] | None =>
  [Printf "Shunt current: %2.5f A\n" iShunt]
  end end end end end end
  end.

(** The text of an output line. *)
Definition text_of (e : Event) : option string :=
  match e with
  | Printf format _ => Some format
  | Println text _ => Some text
  | Fatal _ => None
  end.

(** What a line shows: its text and the value printed with it. *)
Definition shown (e : Event) : option (string * (float + Z)) :=
  match e with
  | Printf format a => Some (format, inl a)
  | Println text a => Some (text, inr a)
  | Fatal _ => None
  end.

(** The lines of the example program, in order. *)
Definition example_lines : list string :=
  ["Bus voltage: %2.5f V\n"; "Shunt voltage: %2.5f V\n";
   "Current resolution: %2.5f A/bit\n"; "Shunt current register:";
   "Shunt current: %2.5f A\n"].

(** What the example program shows when every register of the chip
    holds 128 before the calibration. *)
Definition example_output : list (string * (float + Z)) :=
  [("Bus voltage: %2.5f V\n", inl 160%float);
   ("Shunt voltage: %2.5f V\n", inl 0.32%float);
   ("Current resolution: %2.5f A/bit\n", inl 0.00002%float);
   ("Shunt current register:", inr 128);
   ("Shunt current: %2.5f A\n", inl 0.00256%float)].

End Example.

(** * Properties *)


(** Runs [tac] for each value of an integer known by a disjunction of
    equations. *)
Ltac each_value Hcases tac :=
  repeat (destruct Hcases as [-> | Hcases]; [tac|]); subst; tac.

(** ** Integers and bytes *)

Lemma lor_bound (n a b : Z) :
  0 <= n -> 0 <= a < 2 ^ n -> 0 <= b < 2 ^ n -> 0 <= Z.lor a b < 2 ^ n.
Proof.
  intros Hn Ha Hb.
  assert (E : Z.lor a b = Z.land (Z.lor a b) (Z.ones n)).
  { rewrite Z.land_lor_distr_l, !Z.land_ones by assumption.
    rewrite !Z.mod_small by assumption. reflexivity. }
  rewrite E, Z.land_ones by assumption.
  apply Z.mod_pos_bound. apply Z.pow_pos_nonneg; lia.
Qed.

Lemma uint16_range (x : Z) : 0 <= uint16 x < 2 ^ 16.
Proof.
  unfold uint16. change (2 ^ 16) with 65536. apply Z.mod_pos_bound. lia.
Qed.

Lemma high_byte (v : Z) : 0 <= v < 65536 -> byte (Z.shiftr v 8) = v / 256.
Proof.
  intros Hv. unfold byte. rewrite Z.shiftr_div_pow2 by lia.
  change (2 ^ 8) with 256. apply Z.mod_small.
  split; [apply Z.div_pos; lia | apply Z.div_lt_upper_bound; lia].
Qed.

(** ** What each method does to the handle *)

Section DriverFacts.

Context {FP : Float64} {I2C : I2CDevice}.

Lemma wordToByteArray_bytes (w : Z) :
  wordToByteArray w = [byte (Z.shiftr w 8); byte w].
Proof. reflexivity. Qed.

Lemma device_Write_run (buf : list Z) (ina : Ina226 FP I2C) :
  device_Write buf ina =
  ((fst (fst (Write (device ina) buf)),
    lift_err (snd (fst (Write (device ina) buf)))),
   mkIna226 (snd (Write (device ina) buf)) (trace ina ++ [OpWrite buf])
            (rShunt ina) (iMax ina) (vBusMax ina) (vShuntMax ina)).
Proof.
  unfold device_Write.
  destruct (Write (device ina) buf) as [[n err] dev']. reflexivity.
Qed.

Lemma Reset_run (ina : Ina226 FP I2C) :
  Reset ina =
  (lift_err (snd (fst (Write (device ina) [CONFIG_REG; 0x80; 0x00]))),
   mkIna226 (snd (Write (device ina) [CONFIG_REG; 0x80; 0x00]))
            (trace ina ++ [OpWrite [CONFIG_REG; 0x80; 0x00]])
            (rShunt ina) (iMax ina) (vBusMax ina) (vShuntMax ina)).
Proof.
  unfold Reset, bind. rewrite wordToByteArray_bytes.
  change ([] ++ [CONFIG_REG] ++ [byte (Z.shiftr INA226_RST 8); byte INA226_RST])
    with [CONFIG_REG; 0x80; 0x00].
  rewrite device_Write_run.
  destruct (lift_err _); reflexivity.
Qed.

Lemma Configure_run (confs : list Z) (ina : Ina226 FP I2C) :
  let w := fold_left Z.lor confs 0 in
  let buf := [CONFIG_REG; byte (Z.shiftr w 8); byte w] in
  Configure confs ina =
  (lift_err (snd (fst (Write (device ina) buf))),
   mkIna226 (snd (Write (device ina) buf)) (trace ina ++ [OpWrite buf])
            (rShunt ina) (iMax ina) (vBusMax ina) (vShuntMax ina)).
Proof.
  intros w buf. unfold Configure, bind. rewrite wordToByteArray_bytes.
  change ([] ++ [CONFIG_REG] ++ ?l) with (CONFIG_REG :: l).
  fold w. fold buf. rewrite device_Write_run.
  destruct (lift_err _); reflexivity.
Qed.

Lemma Calibrate_run (r i : float64) (ina : Ina226 FP I2C) :
  let v := calibrationValue r i in
  let buf := [CALIBRATION_REG; byte (Z.shiftr v 8); byte v] in
  Calibrate r i ina =
  (lift_err (snd (fst (Write (device ina) buf))),
   mkIna226 (snd (Write (device ina) buf)) (trace ina ++ [OpWrite buf])
            r i (vBusMax ina) (vShuntMax ina)).
Proof.
  intros v buf. unfold Calibrate, bind, set_rShunt, set_iMax, get.
  cbn [rShunt iMax]. rewrite wordToByteArray_bytes.
  change ([] ++ [CALIBRATION_REG] ++ ?l) with (CALIBRATION_REG :: l).
  fold v. fold buf. rewrite device_Write_run. cbn.
  destruct (lift_err _); reflexivity.
Qed.

Lemma readRegister16_outcome (reg : Z) (ina : Ina226 FP I2C) :
  read_outcome reg ina (readRegister16 reg ina) /\
  rShunt (snd (readRegister16 reg ina)) = rShunt ina /\
  iMax (snd (readRegister16 reg ina)) = iMax ina.
Proof.
  unfold readRegister16, bind. rewrite device_Write_run.
  destruct (Write (device ina) [reg]) as [[n1 [c1|]] d1]; cbn.
  - split; [|split; reflexivity]. apply read_write_failed. reflexivity.
  - unfold device_Read. cbn.
    destruct (Read d1 2) as [[[data n2] [c2|]] d2]; cbn.
    + split; [|split; reflexivity]. apply read_read_failed.
      cbn. rewrite <- app_assoc. reflexivity.
    + split; [|split; reflexivity]. apply read_done.
      * change 65536 with (2 ^ 16).
        apply lor_bound; try lia; apply uint16_range.
      * cbn. rewrite <- app_assoc. reflexivity.
Qed.

Lemma ReadShuntCurrentRegister_outcome (ina : Ina226 FP I2C) :
  exists v : Z,
    read_outcome CURRENT_REG ina
      ((v, snd (fst (ReadShuntCurrentRegister ina))),
       snd (ReadShuntCurrentRegister ina)) /\
    rShunt (snd (ReadShuntCurrentRegister ina)) = rShunt ina.
Proof.
  destruct (readRegister16_outcome CURRENT_REG ina) as (Hout & Hr & _).
  unfold ReadShuntCurrentRegister, bind.
  destruct (readRegister16 CURRENT_REG ina) as [[v [e|]] ina']; cbn in *;
    exists v; split; assumption.
Qed.

Lemma CurrentResolution_uncalibrated (ina : Ina226 FP I2C) :
  fle (rShunt ina) (const 0.0) = true ->
  CurrentResolution ina =
  ((const 0, Some (NotCalibratedError (rShunt ina))), ina).
Proof.
  intros Hle. unfold CurrentResolution, bind, get. rewrite Hle. reflexivity.
Qed.

Lemma CurrentResolution_calibrated (ina : Ina226 FP I2C) :
  fle (rShunt ina) (const 0.0) = false ->
  CurrentResolution ina =
  match readCalibrationRegister ina with
  | ((_, Some e), ina') => ((const 0, Some e), ina')
  | ((calibration, None), ina') =>
      ((fdiv (const 0.00512) (fmul (of_int calibration) (rShunt ina)), None),
       ina')
  end.
Proof.
  intros Hle. unfold CurrentResolution, bind, get. rewrite Hle.
  destruct (readCalibrationRegister ina) as [[cal [e|]] ina']; reflexivity.
Qed.

End DriverFacts.

(** ** [Configure] *)

(** Masking distributes over the accumulation of [Configure]. *)
Lemma fold_lor_land (m : Z) (confs : list Z) (acc : Z) :
  Z.land (fold_left Z.lor confs acc) m =
  fold_left Z.lor (map (fun c => Z.land c m) confs) (Z.land acc m).
Proof.
  revert acc. induction confs as [|c confs IH]; intros acc; cbn.
  - reflexivity.
  - rewrite IH, Z.land_lor_distr_l. reflexivity.
Qed.

(** A helper constant has no bit outside its field. *)
Lemma supported_field (o : Field * Z) (f : Field) :
  supported o ->
  Z.land (snd o) (field_mask f) = if Field_eqb (fst o) f then snd o else 0.
Proof.
  destruct o as [g c]. unfold supported. cbn [fst snd].
  intros Hin. destruct g; cbn in Hin;
    repeat (destruct Hin as [<- | Hin]; [destruct f; reflexivity|]);
    contradiction.
Qed.

Lemma supported_range (o : Field * Z) : supported o -> 0 <= snd o < 2 ^ 12.
Proof.
  destruct o as [g c]. unfold supported. cbn [fst snd].
  intros Hin. destruct g; cbn in Hin;
    repeat (destruct Hin as [<- | Hin]; [vm_compute; split; congruence|]);
    contradiction.
Qed.

Lemma fold_lor_range (n : Z) (confs : list Z) (acc : Z) :
  0 <= n -> 0 <= acc < 2 ^ n ->
  Forall (fun c => 0 <= c < 2 ^ n) confs ->
  0 <= fold_left Z.lor confs acc < 2 ^ n.
Proof.
  intros Hn Hacc Hall. revert acc Hacc.
  induction Hall as [|c confs Hc _ IH]; intros acc Hacc; cbn.
  - exact Hacc.
  - apply IH. apply lor_bound; assumption.
Qed.

(** The field [f] of the accumulated word is the accumulation of the
    constants supplied for [f]. *)
Lemma fold_lor_supplied (f : Field) (opts : list (Field * Z)) (acc : Z) :
  Forall supported opts ->
  fold_left Z.lor (map (fun c => Z.land c (field_mask f)) (map snd opts)) acc =
  fold_left Z.lor (supplied f opts) acc.
Proof.
  intros Hall. revert acc.
  induction Hall as [|o opts Ho _ IH]; intros acc.
  - reflexivity.
  - unfold supplied in *. cbn [map filter fold_left].
    rewrite (supported_field o f Ho).
    destruct (Field_eqb (fst o) f); cbn [map fold_left].
    + apply IH.
    + rewrite Z.lor_0_r. apply IH.
Qed.

(** Accumulating one constant any number of times gives that constant. *)
Lemma fold_lor_same (c : Z) (l : list Z) (acc : Z) :
  (forall x, In x l -> x = c) -> l <> [] ->
  fold_left Z.lor l acc = Z.lor acc c.
Proof.
  revert acc. induction l as [|x l IH]; intros acc Hall Hne; [contradiction|].
  cbn. rewrite (Hall x (or_introl eq_refl)).
  destruct l as [|y l].
  - reflexivity.
  - rewrite IH.
    + rewrite <- Z.lor_assoc, Z.lor_diag. reflexivity.
    + intros z Hz. apply Hall. right. exact Hz.
    + discriminate.
Qed.

Section Configuration.

Context {FP : Float64} {I2C : I2CDevice}.

(** C4 (amended).  For every list of supported operating-mode,
    conversion-time and averaging constants passed to [Configure], one
    write of [CONFIG_REG, high byte, low byte] is sent, and in the word
    [w] it carries the bits of each field are the bitwise OR of all the
    constants supplied for that field: zero when none was supplied, the
    constant itself when one constant was supplied (once or several
    times).  Bits 12 to 15 are zero. *)
Theorem Configure_combines_by_or
  (opts : list (Field * Z)) (ina : Ina226 FP I2C) :
  Forall supported opts ->
  exists w : Z,
    0 <= w < 4096 /\
    trace (snd (Configure (map snd opts) ina)) =
      trace ina ++ [OpWrite [CONFIG_REG; w / 256; w mod 256]] /\
    forall f : Field,
      field_bits f w = fold_left Z.lor (supplied f opts) 0 /\
      (supplied f opts = [] -> field_bits f w = 0) /\
      (forall c : Z,
         supplied f opts <> [] ->
         (forall x, In x (supplied f opts) -> x = c) ->
         field_bits f w = c).
Proof.
  intros Hall.
  set (w := fold_left Z.lor (map snd opts) 0).
  assert (Hw : 0 <= w < 2 ^ 12).
  { apply fold_lor_range; [lia | lia |].
    apply Forall_map. revert Hall. apply Forall_impl. exact supported_range. }
  assert (Hfield :
            forall f, field_bits f w = fold_left Z.lor (supplied f opts) 0).
  { intros f. unfold field_bits, w. rewrite fold_lor_land.
    apply fold_lor_supplied. exact Hall. }
  change (2 ^ 12) with 4096 in Hw.
  exists w. split; [exact Hw|]. split.
  - rewrite Configure_run. fold w. cbn [snd trace].
    rewrite high_byte by lia. reflexivity.
  - intros f. rewrite Hfield. split; [reflexivity|]. split.
    + intros ->. reflexivity.
    + intros c Hne Hsame. rewrite (fold_lor_same c) by assumption. reflexivity.
Qed.

(** C5.  [Reset] asks the device for one write, of the bytes
    [CONFIG_REG, 0x80, 0x00], whatever the state of the handle and of the
    chip: the word has bit 15 set and no other bit, no read precedes the
    write, and the result is the result of that write. *)
Theorem Reset_writes_reset_bit_only (ina : Ina226 FP I2C) :
  trace (snd (Reset ina)) = trace ina ++ [OpWrite [CONFIG_REG; 0x80; 0x00]] /\
  word_of 0x80 0x00 = INA226_RST /\
  (forall n : Z, Z.testbit INA226_RST n = (n =? 15)) /\
  fst (Reset ina) =
    lift_err (snd (fst (Write (device ina) [CONFIG_REG; 0x80; 0x00]))) /\
  device (snd (Reset ina)) = snd (Write (device ina) [CONFIG_REG; 0x80; 0x00]).
Proof.
  rewrite Reset_run. cbn [fst snd trace device].
  split; [reflexivity|]. split; [reflexivity|]. split; [|split; reflexivity].
  intros n. change INA226_RST with (2 ^ 15).
  rewrite Z.pow2_bits_eqb by lia. apply Z.eqb_sym.
Qed.

End Configuration.

(** C4, the claim as stated fails.  [Configure(INA226_MODE_SHUNT_TRIG,
    INA226_MODE_BUS_TRIG)] writes the word 0x0003: its MODE field is 3,
    the OR of the two constants, and not 2, the constant supplied last. *)
Lemma Configure_or_not_last :
  let opts := [(MODE, INA226_MODE_SHUNT_TRIG); (MODE, INA226_MODE_BUS_TRIG)] in
  let ina := handle 0 [] 0 in
  Forall supported opts /\
  trace (snd (Configure (map snd opts) ina)) =
    trace ina ++ [OpWrite [CONFIG_REG; 0x00; 0x03]] /\
  field_bits MODE (word_of 0x00 0x03) = 3 /\
  last (supplied MODE opts) 0 = INA226_MODE_BUS_TRIG /\
  field_bits MODE (word_of 0x00 0x03) <> last (supplied MODE opts) 0.
Proof.
  cbv zeta. split; [|split; [|split; [|split]]]; try reflexivity.
  - repeat constructor; cbn; tauto.
  - discriminate.
Qed.

Lemma Configure_combines_by_or_witness :
  exists w : Z,
    0 <= w < 4096 /\
    trace (snd (Configure (map snd example_options) (handle 0 [] 0))) =
      trace (handle 0 [] 0) ++ [OpWrite [CONFIG_REG; w / 256; w mod 256]] /\
    forall f : Field,
      field_bits f w = fold_left Z.lor (supplied f example_options) 0 /\
      (supplied f example_options = [] -> field_bits f w = 0) /\
      (forall c : Z,
         supplied f example_options <> [] ->
         (forall x, In x (supplied f example_options) -> x = c) ->
         field_bits f w = c).
Proof.
  apply (Configure_combines_by_or example_options (handle 0 [] 0)).
  repeat constructor; cbn; tauto.
Defined.

(** After the configuration of the example program, [Reset] leaves
    0x8000 in the configuration register of the scripted chip. *)
Lemma Reset_after_Configure :
  let ina1 := snd (Configure (map snd example_options) (handle 0 [] 0)) in
  Chip.regs (device ina1) CONFIG_REG = 0x0127 /\
  Chip.regs (device (snd (Reset ina1))) CONFIG_REG = 0x8000.
Proof. split; reflexivity. Qed.

(** ** [Calibrate] *)

Section Calibration.

Context {FP : Float64} {I2C : I2CDevice}.

(** C8.  [Calibrate] stores both parameters on the handle whatever the
    write returns: they are stored after a write that failed, and that
    call returns the error of the transport. *)
Theorem Calibrate_stores_parameters_first
  (r i : float64) (ina : Ina226 FP I2C) :
  let v := calibrationValue r i in
  let buf := [CALIBRATION_REG; byte (Z.shiftr v 8); byte v] in
  rShunt (snd (Calibrate r i ina)) = r /\
  iMax (snd (Calibrate r i ina)) = i /\
  forall code : Z,
    snd (fst (Write (device ina) buf)) = Some code ->
    fst (Calibrate r i ina) = Some (TransportError code) /\
    rShunt (snd (Calibrate r i ina)) = r /\
    iMax (snd (Calibrate r i ina)) = i.
Proof.
  intros v buf. rewrite Calibrate_run. fold v. fold buf.
  cbn [fst snd rShunt iMax].
  split; [reflexivity|]. split; [reflexivity|].
  intros code Hfail. rewrite Hfail. repeat split.
Qed.

(** C10.  [Calibrate] checks nothing: for all parameters the value [v]
    written is the conversion of the quotient of line 152, computed from
    the logarithm and the divisions as they stand; it is a sixteen-bit
    value, it is sent in one write of [CALIBRATION_REG, high byte, low
    byte], and the only error [Calibrate] can return is the error of
    that write. *)
Theorem Calibrate_never_validates (r i : float64) (ina : Ina226 FP I2C) :
  let L := fmul (fdiv i (const 32768)) (const 1000000) in
  let lsb :=
    fdiv (fmul (Ceil (fdiv L (Pow (const 10) (Floor (Log10 L)))))
               (Pow (const 10) (Floor (Log10 L))))
         (const 1000000) in
  let v := to_uint16 (fdiv (const 0.00512) (fmul lsb r)) in
  let buf := [CALIBRATION_REG; v / 256; v mod 256] in
  calibrationValue r i = v /\
  0 <= v < 65536 /\
  trace (snd (Calibrate r i ina)) = trace ina ++ [OpWrite buf] /\
  fst (Calibrate r i ina) = lift_err (snd (fst (Write (device ina) buf))) /\
  (forall x : float64, fst (Calibrate r i ina) <> Some (NotCalibratedError x)).
Proof.
  intros L lsb v buf.
  assert (Hv : 0 <= v < 65536) by apply to_uint16_range.
  assert (E : calibrationValue r i = v) by reflexivity.
  rewrite Calibrate_run, E, (high_byte v Hv). fold (byte v).
  cbn [fst snd trace]. unfold byte. fold buf.
  split; [reflexivity|]. split; [exact Hv|].
  split; [reflexivity|]. split; [reflexivity|].
  intros x. destruct (snd (fst (Write (device ina) buf))); discriminate.
Qed.

End Calibration.

Lemma Calibrate_stores_parameters_first_witness :
  let ina := handle 0 [true] 0 in
  fst (Calibrate (0.01%float : @float64 (binary64 GoMath.platform))
         0.5%float ina) = Some (TransportError 5) /\
  rShunt (snd (Calibrate (0.01%float : @float64 (binary64 GoMath.platform))
                 0.5%float ina)) = 0.01%float /\
  iMax (snd (Calibrate (0.01%float : @float64 (binary64 GoMath.platform))
               0.5%float ina)) = 0.5%float.
Proof.
  exact (proj2 (proj2 (Calibrate_stores_parameters_first
                         (0.01%float : @float64 (binary64 GoMath.platform))
                         0.5%float (handle 0 [true] 0)))
           5 eq_refl).
Defined.

(** ** binary64 *)

(** The constants of the driver are the floats nearest to the decimal
    constants of the source. *)
Lemma b64_const_literals :
  b64_const 32768 = 32768%float /\ b64_const 1000000 = 1000000%float /\
  b64_const 10 = 10%float /\ b64_const 0.00512 = 0.00512%float /\
  b64_const 1.25 = 1.25%float /\ b64_const 0.0025 = 0.0025%float /\
  b64_const 0.0 = 0%float.
Proof. repeat split. Qed.

Lemma reference_platform_values :
  GoMath.Pow 10 1 = 10%float /\
  Math.Floor (GoMath.Log10 15.2587890625) = 1%float /\
  GoMath.Log10 1000 = 3%float /\
  GoMath.Pow 10 (-2) = 0.01%float.
Proof. repeat split. Qed.

(** A value greater than zero is not less than or equal to zero (a NaN
    is neither). *)
Lemma b64_pos_not_le (x : float) :
  PrimFloat.ltb 0 x = true -> PrimFloat.leb x 0 = false.
Proof.
  rewrite FloatAxioms.ltb_spec, FloatAxioms.leb_spec.
  change (Prim2SF 0) with (S754_zero false).
  destruct (Prim2SF x) as [s|s| |s m e]; try destruct s; cbn; congruence.
Qed.

(** Discarding the fraction of a non-negative rational is taking its
    floor. *)
Lemma Qtrunc_nonneg (q : Q) : (0 <= q)%Q -> Qtrunc q = Qfloor q.
Proof.
  destruct q as [n d]. unfold Qle, Qtrunc, Qfloor. cbn. intros Hn.
  apply Z.quot_div_nonneg; lia.
Qed.

Lemma Qfloor_uint16 (q : Q) :
  (0 <= q)%Q -> (q < 65536)%Q -> 0 <= Qfloor q < 65536.
Proof.
  intros H0 H1. split.
  - change 0 with (Qfloor 0). apply Qfloor_resp_le. exact H0.
  - assert (H : (inject_Z (Qfloor q) < inject_Z 65536)%Q).
    { apply Qle_lt_trans with q; [apply Qfloor_le | exact H1]. }
    rewrite <- Zlt_Qlt in H. exact H.
Qed.

Section Binary64.

Variable P : Platform.
Context {I2C : I2CDevice}.

Local Abbreviation FP := (binary64 P).

Lemma currentLSB_uA_half :
  currentLSB_uA (FP := FP) 0.5%float = 15.2587890625%float.
Proof. reflexivity. Qed.

(** C1.  On a platform whose [math.Pow(10, 1)] is 10 (the documented
    special case [Pow(x, 1) = x]) and whose [math.Log10(15.2587890625)]
    lies between 1 and 2, [Calibrate(0.01, 0.5)] approximates the
    current LSB to 20 micro-amperes, that is 0.00002 A, computes the
    calibration value 25600 and sends the bytes [CALIBRATION_REG, 0x64,
    0x00] (25600 is 0x6400). *)
Theorem Calibrate_example (ina : Ina226 FP I2C) :
  math_Pow P 10 1 = 10%float ->
  Math.Floor (math_Log10 P 15.2587890625) = 1%float ->
  currentLSB_approx (FP := FP) (currentLSB_uA (FP := FP) 0.5%float)
    = 20%float /\
  currentLSB_A (FP := FP) 0.5%float = 0.00002%float /\
  calibrationValue (FP := FP) 0.01%float 0.5%float = 25600 /\
  trace (snd (Calibrate (0.01%float : @float64 FP) (0.5%float : @float64 FP)
                ina)) =
    trace ina ++ [OpWrite [CALIBRATION_REG; 0x64; 0x00]].
Proof.
  intros Hpow Hlog.
  assert (Happrox :
    currentLSB_approx (FP := FP) (currentLSB_uA (FP := FP) 0.5%float)
    = 20%float).
  { rewrite currentLSB_uA_half. unfold currentLSB_approx.
    cbn [Pow Floor Log10 binary64 fdiv fmul Ceil const].
    rewrite Hlog. change (b64_const 10) with 10%float. rewrite Hpow.
    reflexivity. }
  assert (Hlsb : currentLSB_A (FP := FP) 0.5%float = 0.00002%float).
  { unfold currentLSB_A. rewrite Happrox. reflexivity. }
  assert (Hval : calibrationValue (FP := FP) 0.01%float 0.5%float = 25600).
  { unfold calibrationValue, calibrationQuotient. rewrite Hlsb. reflexivity. }
  split; [exact Happrox|]. split; [exact Hlsb|]. split; [exact Hval|].
  rewrite Calibrate_run, Hval. reflexivity.
Qed.

(** C2 (amended).  Whenever the binary64 quotient
    [0.00512 / (finalLSB * shuntResistanceOhms)] of line 152, with
    [finalLSB] the approximated current LSB in amperes of lines 142 to
    150, is a finite value [q] with [0 <= q < 65536], the value [v] that
    [Calibrate] writes to the calibration register is [q] with its
    fraction discarded: the floor of [q], [v <= q < v + 1], and not the
    integer nearest to [q].  The bytes written are [CALIBRATION_REG,
    v / 256, v mod 256]. *)
Theorem Calibrate_writes_truncated_quotient
  (r i : float) (q : Q) (ina : Ina226 FP I2C) :
  let L := PrimFloat.mul (PrimFloat.div i 32768) 1000000 in
  let p := math_Pow P 10 (Math.Floor (math_Log10 P L)) in
  let finalLSB :=
    PrimFloat.div (PrimFloat.mul (Math.Ceil (PrimFloat.div L p)) p) 1000000 in
  float_value (PrimFloat.div 0.00512 (PrimFloat.mul finalLSB r)) = Some q ->
  (0 <= q)%Q -> (q < 65536)%Q ->
  let v := Qfloor q in
  (inject_Z v <= q)%Q /\ (q < inject_Z v + 1)%Q /\
  0 <= v < 65536 /\
  finalLSB = currentLSB_A (FP := FP) i /\
  calibrationValue (FP := FP) r i = v /\
  trace (snd (Calibrate (r : @float64 FP) i ina)) =
    trace ina ++ [OpWrite [CALIBRATION_REG; v / 256; v mod 256]].
Proof.
  intros L p finalLSB Hq H0 H1 v.
  assert (Hv : 0 <= v < 65536) by (apply Qfloor_uint16; assumption).
  assert (E : calibrationValue (FP := FP) r i = v).
  { unfold calibrationValue, calibrationQuotient.
    cbn [to_uint16 binary64 fmul fdiv const].
    change (b64_const 0.00512) with 0.00512%float.
    change (currentLSB_A (FP := FP) i) with finalLSB.
    unfold b64_to_uint16, trunc. rewrite Hq. cbn [option_map].
    rewrite (Qtrunc_nonneg q H0). fold v.
    replace ((0 <=? v) && (v <? 65536)) with true
      by (symmetry; apply andb_true_intro; split;
          [apply Z.leb_le | apply Z.ltb_lt]; lia).
    unfold uint16. apply Z.mod_small. lia. }
  split; [apply Qfloor_le|]. split.
  { apply Qlt_le_trans with (inject_Z (Qfloor q + 1)); [apply Qlt_floor|].
    rewrite inject_Z_plus. apply Qle_refl. }
  split; [exact Hv|]. split; [reflexivity|]. split; [exact E|].
  rewrite Calibrate_run, E, (high_byte v Hv). unfold byte. reflexivity.
Qed.

(** C6.  When the shunt-voltage register is read as [v],
    [ReadShuntVoltage] returns the two's complement reading of the
    sixteen bits of [v] times 0.0025: -81.92 for 0x8000 and 0.25 for
    100. *)
Theorem ReadShuntVoltage_signed
  (ina : Ina226 FP I2C) (v : Z) (ina' : Ina226 FP I2C) :
  readRegister16 SHUNTVOLTAGE_REG ina = ((v, None), ina') ->
  ReadShuntVoltage ina =
    ((PrimFloat.mul (float_of_Z (int16 v)) 0.0025, None), ina') /\
  0 <= v < 65536 /\
  int16 v = (if v <? 32768 then v else v - 65536) /\
  (v = 0x8000 ->
   PrimFloat.mul (float_of_Z (int16 v)) 0.0025 = (-81.92)%float) /\
  (v = 100 -> PrimFloat.mul (float_of_Z (int16 v)) 0.0025 = 0.25%float).
Proof.
  intros Hread.
  destruct (readRegister16_outcome SHUNTVOLTAGE_REG ina) as (Hout & _).
  rewrite Hread in Hout. inversion Hout as [| |v' s Hv Htr]; subst.
  split; [|split; [|split; [|split]]].
  - unfold ReadShuntVoltage, bind. rewrite Hread. reflexivity.
  - exact Hv.
  - unfold int16. rewrite Z.mod_small by exact Hv. reflexivity.
  - intros ->. reflexivity.
  - intros ->. reflexivity.
Qed.

(** C7.  With a stored shunt resistance less than or equal to zero
    [CurrentResolution] returns the not-calibrated error and leaves the
    handle as it was: the device is not asked anything, so the result
    depends neither on the calibration register nor on the transport.
    With a shunt resistance greater than zero it returns
    [0.00512 / (calibration * rShunt)] when the register is read, and
    the error of the read otherwise; no value stands in for a failed
    read. *)
Theorem CurrentResolution_requires_calibration (ina : Ina226 FP I2C) :
  (PrimFloat.leb (rShunt ina) 0 = true ->
   CurrentResolution ina =
     ((0%float, Some (NotCalibratedError (rShunt ina))), ina)) /\
  (PrimFloat.ltb 0 (rShunt ina) = true ->
   forall (calibration : Z) (ina' : Ina226 FP I2C),
     readCalibrationRegister ina = ((calibration, None), ina') ->
     CurrentResolution ina =
       ((PrimFloat.div 0.00512
           (PrimFloat.mul (float_of_Z calibration) (rShunt ina)), None),
        ina')) /\
  (PrimFloat.ltb 0 (rShunt ina) = true ->
   forall (v : Z) (e : error FP) (ina' : Ina226 FP I2C),
     readCalibrationRegister ina = ((v, Some e), ina') ->
     CurrentResolution ina = ((0%float, Some e), ina')).
Proof.
  split; [|split].
  - intros Hle. exact (CurrentResolution_uncalibrated ina Hle).
  - intros Hpos cal ina' Hread.
    rewrite (CurrentResolution_calibrated ina (b64_pos_not_le _ Hpos)), Hread.
    reflexivity.
  - intros Hpos v e ina' Hread.
    rewrite (CurrentResolution_calibrated ina (b64_pos_not_le _ Hpos)), Hread.
    reflexivity.
Qed.

End Binary64.

Lemma Calibrate_example_witness :
  let FP := binary64 GoMath.platform in
  let ina := handle 0 [] 0 in
  currentLSB_approx (FP := FP) (currentLSB_uA (FP := FP) 0.5%float)
    = 20%float /\
  currentLSB_A (FP := FP) 0.5%float = 0.00002%float /\
  calibrationValue (FP := FP) 0.01%float 0.5%float = 25600 /\
  trace (snd (Calibrate (0.01%float : @float64 FP) (0.5%float : @float64 FP)
                ina)) =
    trace ina ++ [OpWrite [CALIBRATION_REG; 0x64; 0x00]].
Proof.
  exact (Calibrate_example GoMath.platform (handle 0 [] 0) eq_refl eq_refl).
Defined.

(** C2, the claim as stated fails.  For a shunt of 0.015 ohm and a
    maximum current of 0.5 A the quotient is 17066.666...: [Calibrate]
    writes 17066, and the nearest integer is 17067. *)
Lemma calibrationValue_not_nearest :
  let FP := binary64 GoMath.platform in
  calibrationValue (FP := FP) 0.015%float 0.5%float = 17066 /\
  round_to_uint16 (calibrationQuotient (FP := FP) 0.015%float 0.5%float)
    = Some 17067 /\
  Some (calibrationValue (FP := FP) 0.015%float 0.5%float) <>
  round_to_uint16 (calibrationQuotient (FP := FP) 0.015%float 0.5%float) /\
  trace (snd (Calibrate (0.015%float : @float64 FP) 0.5%float (handle 0 [] 0)))
    = [OpWrite [CALIBRATION_REG; 17066 / 256; 17066 mod 256]].
Proof.
  cbv zeta. split; [|split; [|split]].
  - vm_compute. reflexivity.
  - vm_compute. reflexivity.
  - vm_compute. discriminate.
  - reflexivity.
Qed.

Lemma Calibrate_writes_truncated_quotient_witness :
  let FP := binary64 GoMath.platform in
  float_value (calibrationQuotient (FP := FP) 0.015%float 0.5%float)
    = Some example_quotient /\
  Qfloor example_quotient = 17066 /\
  calibrationValue (FP := FP) 0.015%float 0.5%float = 17066 /\
  trace (snd (Calibrate (0.015%float : @float64 FP) 0.5%float (handle 0 [] 0)))
    = [OpWrite [CALIBRATION_REG; 0x42; 0xAA]].
Proof.
  pose proof (Calibrate_writes_truncated_quotient GoMath.platform
                0.015%float 0.5%float example_quotient (handle 0 [] 0)
                eq_refl ltac:(discriminate) eq_refl)
    as (_ & _ & _ & _ & Hv & Htr).
  cbv zeta. split; [reflexivity|]. split; [reflexivity|].
  split; [exact Hv | exact Htr].
Defined.

Lemma ReadShuntVoltage_signed_witness :
  let ina := handle 0x8000 [] 0 in
  let ina' := snd (readRegister16 SHUNTVOLTAGE_REG ina) in
  ReadShuntVoltage ina = (((-81.92)%float, None), ina').
Proof.
  cbv zeta.
  exact (proj1 (ReadShuntVoltage_signed GoMath.platform
                  (handle 0x8000 [] 0) 0x8000
                  (snd (readRegister16 SHUNTVOLTAGE_REG (handle 0x8000 [] 0)))
                  eq_refl)).
Defined.

Lemma CurrentResolution_requires_calibration_witness :
  CurrentResolution (handle 25600 [] 0) =
    ((0%float, Some (@NotCalibratedError (binary64 GoMath.platform) 0%float)),
     handle 25600 [] 0) /\
  fst (CurrentResolution (handle 25600 [] 0.01)) = (0.00002%float, None).
Proof.
  split.
  - exact (proj1 (CurrentResolution_requires_calibration GoMath.platform
                    (handle 25600 [] 0)) eq_refl).
  - exact (f_equal fst
             (proj1 (proj2 (CurrentResolution_requires_calibration
                              GoMath.platform (handle 25600 [] 0.01)))
                eq_refl 25600
                (snd (readCalibrationRegister (handle 25600 [] 0.01)))
                eq_refl)).
Defined.

(** [Calibrate] with parameters that are not positive: the logarithm and
    the divisions go through NaN and infinities, and a write follows all
    the same. *)
Lemma Calibrate_nonpositive_examples :
  let FP := binary64 GoMath.platform in
  Math.IsNaN (calibrationQuotient (FP := FP) 0.01%float 0%float) = true /\
  Math.IsNaN (calibrationQuotient (FP := FP) 0.01%float (-1)%float) = true /\
  calibrationQuotient (FP := FP) 0%float 0.5%float = infinity /\
  trace (snd (Calibrate (0.01%float : @float64 FP) (-1)%float
                (handle 0 [] 0))) = [OpWrite [CALIBRATION_REG; 0; 0]] /\
  fst (Calibrate (0.01%float : @float64 FP) (-1)%float (handle 0 [] 0)) = None.
Proof. repeat split. Qed.

(** ** [ReadShuntCurrent] *)

Section Current.

Context {FP : Float64} {I2C : I2CDevice}.

(** C9.  On a handle whose shunt resistance is less than or equal to
    zero, [ReadShuntCurrent] first sends the address of the current
    register; an error of that register access is returned as it is,
    and the not-calibrated error is returned only when the current
    register was read, after the write and the read of that access. *)
Theorem ReadShuntCurrent_reads_before_checking (ina : Ina226 FP I2C) :
  fle (rShunt ina) (const 0.0) = true ->
  let ina1 := snd (ReadShuntCurrentRegister ina) in
  (exists rest : list BusOp,
     trace (snd (ReadShuntCurrent ina)) =
     trace ina ++ OpWrite [CURRENT_REG] :: rest) /\
  (forall e : error FP,
     snd (fst (ReadShuntCurrentRegister ina)) = Some e ->
     ReadShuntCurrent ina = ((const 0, Some e), ina1) /\
     exists code : Z, e = TransportError code) /\
  (snd (fst (ReadShuntCurrentRegister ina)) = None ->
   ReadShuntCurrent ina =
     ((const 0, Some (NotCalibratedError (rShunt ina))), ina1) /\
   trace ina1 = trace ina ++ [OpWrite [CURRENT_REG]; OpRead 2]) /\
  (forall x : float64,
     snd (fst (ReadShuntCurrent ina)) = Some (NotCalibratedError x) ->
     snd (fst (ReadShuntCurrentRegister ina)) = None).
Proof.
  intros Hle ina1.
  destruct (ReadShuntCurrentRegister_outcome ina) as (v & Hout & Hr).
  fold ina1 in Hout, Hr.
  assert (Hun : CurrentResolution ina1 =
                ((const 0, Some (NotCalibratedError (rShunt ina))), ina1)).
  { rewrite <- Hr. apply CurrentResolution_uncalibrated.
    rewrite Hr. exact Hle. }
  unfold ReadShuntCurrent, bind.
  destruct (ReadShuntCurrentRegister ina) as [[raw err] s] eqn:E.
  cbn [fst snd] in *. subst ina1.
  inversion Hout as [code s' Htr | code s' Htr | v' s' Hv Htr]; subst;
    cbn [fst snd].
  - (* the write of the address failed *)
    split; [exists []; exact Htr|]. split; [|split].
    + intros e He. inversion He; subst. split; [reflexivity | eauto].
    + discriminate.
    + discriminate.
  - (* the read failed *)
    split; [exists [OpRead 2]; exact Htr|]. split; [|split].
    + intros e He. inversion He; subst. split; [reflexivity | eauto].
    + discriminate.
    + discriminate.
  - (* the register was read *)
    rewrite Hun. cbn [fst snd].
    split; [exists [OpRead 2]; exact Htr|]. split; [|split].
    + discriminate.
    + intros _. split; [reflexivity | exact Htr].
    + reflexivity.
Qed.

End Current.

Lemma ReadShuntCurrent_reads_before_checking_witness :
  let ina := handle 128 [false; true] 0 in
  exists rest : list BusOp,
    trace (snd (ReadShuntCurrent ina)) =
    trace ina ++ OpWrite [CURRENT_REG] :: rest.
Proof.
  exact (proj1 (ReadShuntCurrent_reads_before_checking
                  (handle 128 [false; true] 0) eq_refl)).
Defined.

(** The three outcomes on the scripted chip, for a handle that was not
    calibrated: the address write fails, the read fails, both succeed. *)
Lemma ReadShuntCurrent_uncalibrated_examples :
  fst (ReadShuntCurrent (handle 128 [true] 0)) =
    (0%float, Some (TransportError 5)) /\
  trace (snd (ReadShuntCurrent (handle 128 [true] 0))) =
    [OpWrite [CURRENT_REG]] /\
  fst (ReadShuntCurrent (handle 128 [false; true] 0)) =
    (0%float, Some (TransportError 5)) /\
  fst (ReadShuntCurrent (handle 128 [] 0)) =
    (0%float, Some (@NotCalibratedError (binary64 GoMath.platform) 0%float)) /\
  trace (snd (ReadShuntCurrent (handle 128 [] 0))) =
    [OpWrite [CURRENT_REG]; OpRead 2].
Proof. repeat split. Qed.

(** The scenario of the example program: configure, calibrate with
    0.01 ohm and 0.5 A, then read the current on a chip whose current
    register holds 128. *)
Lemma end_to_end_scenario :
  let FP := binary64 GoMath.platform in
  let ina0 := handle 128 [] 0 in
  let ina1 := snd (Configure (map snd example_options) ina0) in
  let ina2 := snd (Calibrate (0.01%float : @float64 FP) 0.5%float ina1) in
  Chip.regs (device ina2) CALIBRATION_REG = 25600 /\
  Chip.regs (device ina2) CONFIG_REG = 0x0127 /\
  fst (ReadShuntCurrent ina2) = (0.00256%float, None).
Proof. repeat split. Qed.

(** ** The decimal-order approximation *)


(** Without a mantissa there is no approximation: a maximum current so
    small that the ideal LSB is 0, or so large that it is infinite,
    gives a NaN, which is not between 1 and 10. *)
Lemma approximation_without_mantissa :
  let FP := binary64 GoMath.platform in
  currentLSB_uA (FP := FP) 5e-324%float = 0%float /\
  currentLSB_approx (FP := FP) 0%float = nan /\
  currentLSB_uA (FP := FP) 1e308%float = infinity /\
  currentLSB_approx (FP := FP) infinity = nan /\
  PrimFloat.leb 1 nan = false.
Proof. cbv zeta. repeat split. Qed.

(** On binary64 the values computed for 0.5 A and 3.2 A are the smallest
    multiples with a multiplier from 1 to 10. *)
Lemma approximation_binary64_examples :
  let FP := binary64 GoMath.platform in
  smallest_multiple (FP := FP) 10 (currentLSB_uA (FP := FP) 0.5%float)
    (currentLSB_approx (FP := FP) (currentLSB_uA (FP := FP) 0.5%float)) /\
  smallest_multiple (FP := FP) 10 (currentLSB_uA (FP := FP) 3.2%float)
    (currentLSB_approx (FP := FP) (currentLSB_uA (FP := FP) 3.2%float)).
Proof.
  cbv zeta. split.
  - exists 2. split; [lia|]. split; [vm_compute; reflexivity|].
    split; [vm_compute; reflexivity|].
    intros d' Hd' Hle.
    assert (Hcases : d' = 1 \/ d' = 2 \/ d' = 3 \/ d' = 4 \/ d' = 5 \/
                     d' = 6 \/ d' = 7 \/ d' = 8 \/ d' = 9 \/ d' = 10) by lia.
    each_value Hcases
      ltac:(first [vm_compute; reflexivity | vm_compute in Hle; discriminate]).
  - exists 10. split; [lia|]. split; [vm_compute; reflexivity|].
    split; [vm_compute; reflexivity|].
    intros d' Hd' Hle.
    assert (Hcases : d' = 1 \/ d' = 2 \/ d' = 3 \/ d' = 4 \/ d' = 5 \/
                     d' = 6 \/ d' = 7 \/ d' = 8 \/ d' = 9 \/ d' = 10) by lia.
    each_value Hcases
      ltac:(first [vm_compute; reflexivity | vm_compute in Hle; discriminate]).
Qed.

(** *** The digits of a mantissa *)




(** *** Rounding a value that needs no rounding *)





(** *** The ceiling of the floats from 1 to 10 *)






(** *** The approximation step *)

Section Binary64Approximation.

Variable P : Platform.

Local Abbreviation FP := (binary64 P).


End Binary64Approximation.


(** ** The other accessors on the scripted chip *)

(** The bus voltage is the unsigned register value times 1.25, the raw
    current the register value in two's complement. *)
Lemma accessor_examples :
  fst (ReadBusVoltage (handle 1000 [] 0)) = (1250%float, None) /\
  fst (ReadBusVoltage (handle 0 [] 0)) = (0%float, None) /\
  fst (ReadBusVoltage (handle 0xFFFF [] 0)) = (81918.75%float, None) /\
  fst (ReadShuntCurrentRegister (handle 0xFFFF [] 0)) = (-1, None) /\
  fst (ReadManufacturerRegister (handle 0x5449 [] 0)) = (0x5449, None) /\
  fst (readConfigurationRegister (handle 0x4127 [true] 0)) =
    (0, Some (TransportError 5)).
Proof. repeat split. Qed.

(** * The register accesses *)

Lemma lor_high_low (hi lo : Z) :
  0 <= hi -> 0 <= lo < 256 -> Z.lor (Z.shiftl hi 8) lo = 256 * hi + lo.
Proof.
  intros Hhi Hlo.
  assert (Hland : Z.land (Z.shiftl hi 8) lo = 0).
  { apply Z.bits_inj'. intros n Hn. rewrite Z.land_spec, Z.bits_0.
    destruct (Z.ltb_spec n 8).
    - rewrite Z.shiftl_spec_low by lia. reflexivity.
    - rewrite (Z.bits_above_log2 lo n); [apply andb_false_r | lia |].
      destruct (Z.eq_dec lo 0) as [-> | Hne]; [cbn; lia|].
      apply Z.lt_le_trans with 8; [|exact H].
      apply Z.log2_lt_pow2; lia. }
  rewrite <- Z.lxor_lor by exact Hland.
  rewrite <- Z.add_nocarry_lxor by exact Hland.
  rewrite Z.shiftl_mul_pow2 by lia. change (2 ^ 8) with 256. lia.
Qed.

Lemma byte_range (x : Z) : 0 <= byte x < 256.
Proof. unfold byte. apply Z.mod_pos_bound. lia. Qed.

(** The decoding of line 191 on two bytes. *)
Lemma decode_bytes (b0 b1 : Z) :
  0 <= b0 < 256 -> 0 <= b1 < 256 ->
  Z.lor (uint16 (Z.shiftl (uint16 b0) 8)) (uint16 b1) = 256 * b0 + b1.
Proof.
  intros H0 H1. unfold uint16.
  rewrite (Z.mod_small b0), (Z.mod_small b1) by lia.
  rewrite Z.shiftl_mul_pow2 by lia. change (2 ^ 8) with 256.
  rewrite Z.mod_small by lia.
  replace (b0 * 256) with (Z.shiftl b0 8)
    by (rewrite Z.shiftl_mul_pow2 by lia; reflexivity).
  apply lor_high_low; lia.
Qed.

Lemma fill_two (data : list Z) :
  fill (make 2) data = [byte (nth 0 data 0); byte (nth 1 data 0)].
Proof. destruct data as [|a [|b data]]; reflexivity. Qed.

Section Access.
Context {FP : Float64} {I2C : I2CDevice}.

(** A register read whose two transfers succeed. *)
Lemma readRegister16_success
  (reg : Z) (ina : Ina226 FP I2C) (n1 : Z) (d1 : Device)
  (data : list Z) (n2 : Z) (d2 : Device) :
  Write (device ina) [reg] = ((n1, None), d1) ->
  Read d1 2 = ((data, n2, None), d2) ->
  readRegister16 reg ina =
    ((256 * byte (nth 0 data 0) + byte (nth 1 data 0), None),
     mkIna226 d2 (trace ina ++ [OpWrite [reg]; OpRead 2])
       (rShunt ina) (iMax ina) (vBusMax ina) (vShuntMax ina)).
Proof.
  intros HW HR. unfold readRegister16, bind, device_Write. rewrite HW.
  cbn [lift_err option_map]. unfold device_Read.
  cbn [device length make repeat]. rewrite HR.
  change (repeat 0 2) with (make 2). rewrite fill_two.
  cbn [lift_err option_map nth trace rShunt iMax vBusMax vShuntMax ret].
  rewrite <- app_assoc. cbn [app].
  rewrite decode_bytes by apply byte_range. reflexivity.
Qed.

(** A failed register read returns the value 0. *)
Lemma readRegister16_error_value (reg : Z) (ina : Ina226 FP I2C) (e : error FP) :
  snd (fst (readRegister16 reg ina)) = Some e ->
  fst (fst (readRegister16 reg ina)) = 0.
Proof.
  destruct (readRegister16_outcome reg ina) as (Hout & _).
  destruct (readRegister16 reg ina) as [[v err] s]. cbn.
  intros ->. inversion Hout; reflexivity.
Qed.

Lemma readRegister16_frame (reg : Z) (ina : Ina226 FP I2C) :
  calibration (snd (readRegister16 reg ina)) = calibration ina.
Proof.
  unfold readRegister16, bind, device_Write, device_Read, calibration.
  destruct (Write (device ina) [reg]) as [[n1 [c1|]] d1]; cbn; [reflexivity|].
  destruct (Read d1 2) as [[[data n2] [c2|]] d2]; reflexivity.
Qed.

(** X1 (readRegister16).  When the write of the register address and
    the read of two bytes succeed, the value returned is the first byte
    received times 256 plus the second byte received (the high byte comes
    first), and no error.  The number of bytes that the read reports is
    not looked at: when no byte was delivered the value is 0, when one
    byte [a] was delivered the value is [256 * a], both without an
    error. *)
Theorem readRegister16_big_endian
  (reg : Z) (ina : Ina226 FP I2C) (n1 : Z) (d1 : Device)
  (data : list Z) (n2 : Z) (d2 : Device) :
  Write (device ina) [reg] = ((n1, None), d1) ->
  Read d1 2 = ((data, n2, None), d2) ->
  fst (readRegister16 reg ina) =
    (256 * byte (nth 0 data 0) + byte (nth 1 data 0), None) /\
  (data = [] -> fst (readRegister16 reg ina) = (0, None)) /\
  (forall a : Z, data = [a] ->
     fst (readRegister16 reg ina) = (256 * byte a, None)).
Proof.
  intros HW HR. rewrite (readRegister16_success reg ina n1 d1 data n2 d2 HW HR).
  cbn [fst]. split; [reflexivity|]. split.
  - intros ->. reflexivity.
  - intros a ->. cbn [nth]. change (byte 0) with 0. rewrite Z.add_0_r.
    reflexivity.
Qed.

(** X2 (wordToByteArray, readRegister16).  The two bytes that
    [wordToByteArray] makes of a sixteen-bit word [w] decode to [w]
    again: a register read that receives them returns [w]. *)
Theorem register_round_trip
  (reg w : Z) (ina : Ina226 FP I2C) (n1 : Z) (d1 : Device)
  (n2 : Z) (d2 : Device) :
  0 <= w < 65536 ->
  Write (device ina) [reg] = ((n1, None), d1) ->
  Read d1 2 = ((wordToByteArray w, n2, None), d2) ->
  fst (readRegister16 reg ina) = (w, None).
Proof.
  intros Hw HW HR.
  rewrite (readRegister16_success reg ina n1 d1 _ n2 d2 HW HR).
  cbn [fst]. rewrite wordToByteArray_bytes. cbn [nth].
  rewrite (high_byte w Hw). f_equal. unfold byte.
  assert (Hhi : 0 <= w / 256 < 256)
    by (split; [apply Z.div_pos; lia | apply Z.div_lt_upper_bound; lia]).
  pose proof (Z.mod_pos_bound w 256 ltac:(lia)) as Hlo.
  rewrite (Z.mod_small (w / 256)), (Z.mod_small (w mod 256)) by lia.
  pose proof (Z.div_mod w 256 ltac:(lia)). lia.
Qed.

(** X3 (readConfigurationRegister, readCalibrationRegister,
    ReadManufacturerRegister).  The three readers are [readRegister16]
    on the configuration, the calibration and the manufacturer
    identification register: the same value, the same error, the same
    bus operations and the same handle afterwards, on a failed read as
    well, where the 0 they return is the value [readRegister16] returns
    with its error. *)
Theorem register_readers_are_the_primitive (ina : Ina226 FP I2C) :
  readConfigurationRegister ina = readRegister16 CONFIG_REG ina /\
  readCalibrationRegister ina = readRegister16 CALIBRATION_REG ina /\
  ReadManufacturerRegister ina = readRegister16 MANUFACTURERID_REG ina.
Proof.
  unfold readConfigurationRegister, readCalibrationRegister,
    ReadManufacturerRegister, bind.
  repeat split.
  - pose proof (readRegister16_error_value CONFIG_REG ina) as H0.
    destruct (readRegister16 CONFIG_REG ina) as [[v [e|]] s]; [|reflexivity].
    cbn in *. rewrite (H0 e eq_refl). reflexivity.
  - pose proof (readRegister16_error_value CALIBRATION_REG ina) as H0.
    destruct (readRegister16 CALIBRATION_REG ina) as [[v [e|]] s]; [|reflexivity].
    cbn in *. rewrite (H0 e eq_refl). reflexivity.
  - pose proof (readRegister16_error_value MANUFACTURERID_REG ina) as H0.
    destruct (readRegister16 MANUFACTURERID_REG ina) as [[v [e|]] s]; [|reflexivity].
    cbn in *. rewrite (H0 e eq_refl). reflexivity.
Qed.

(** X4 (ReadBusVoltage, ReadShuntVoltage, ReadShuntCurrentRegister).
    Each of the three makes the one register read of the bus voltage,
    the shunt voltage and the current register: the handle and the bus
    operations afterwards, and the error, are those of that read.  When
    the read fails the value returned is 0.  The raw current returned
    lies within -32768..32767. *)
Theorem accessors_read_one_register (ina : Ina226 FP I2C) :
  (snd (ReadBusVoltage ina) = snd (readRegister16 BUSVOLTAGE_REG ina) /\
   snd (fst (ReadBusVoltage ina)) = snd (fst (readRegister16 BUSVOLTAGE_REG ina)) /\
   (snd (fst (ReadBusVoltage ina)) <> None ->
    fst (fst (ReadBusVoltage ina)) = const 0)) /\
  (snd (ReadShuntVoltage ina) = snd (readRegister16 SHUNTVOLTAGE_REG ina) /\
   snd (fst (ReadShuntVoltage ina)) =
     snd (fst (readRegister16 SHUNTVOLTAGE_REG ina)) /\
   (snd (fst (ReadShuntVoltage ina)) <> None ->
    fst (fst (ReadShuntVoltage ina)) = const 0)) /\
  (snd (ReadShuntCurrentRegister ina) = snd (readRegister16 CURRENT_REG ina) /\
   snd (fst (ReadShuntCurrentRegister ina)) =
     snd (fst (readRegister16 CURRENT_REG ina)) /\
   -32768 <= fst (fst (ReadShuntCurrentRegister ina)) <= 32767 /\
   (snd (fst (ReadShuntCurrentRegister ina)) <> None ->
    fst (fst (ReadShuntCurrentRegister ina)) = 0)).
Proof.
  unfold ReadBusVoltage, ReadShuntVoltage, ReadShuntCurrentRegister, bind.
  split; [|split].
  - destruct (readRegister16 BUSVOLTAGE_REG ina) as [[v [e|]] s]; cbn;
      repeat split; congruence.
  - destruct (readRegister16 SHUNTVOLTAGE_REG ina) as [[v [e|]] s]; cbn;
      repeat split; congruence.
  - destruct (readRegister16 CURRENT_REG ina) as [[v [e|]] s]; cbn;
      repeat split; try congruence; try lia.
    + unfold int16. pose proof (Z.mod_pos_bound v 65536).
      destruct (v mod 65536 <? 32768) eqn:E;
        [apply Z.ltb_lt in E | apply Z.ltb_ge in E]; lia.
    + unfold int16. pose proof (Z.mod_pos_bound v 65536).
      destruct (v mod 65536 <? 32768) eqn:E;
        [apply Z.ltb_lt in E | apply Z.ltb_ge in E]; lia.
Qed.

End Access.

(** * The options, the calibration variables and the current *)


(** A bit of the accumulated word is set when it is set in the start
    value or in one of the options. *)
Lemma fold_lor_testbit (confs : list Z) (acc n : Z) :
  Z.testbit (fold_left Z.lor confs acc) n =
  Z.testbit acc n || existsb (fun c => Z.testbit c n) confs.
Proof.
  revert acc. induction confs as [|c confs IH]; intros acc; cbn.
  - rewrite orb_false_r. reflexivity.
  - rewrite IH, Z.lor_spec, orb_assoc. reflexivity.
Qed.

Lemma existsb_same_elements {A : Type} (p : A -> bool) (l l' : list A) :
  (forall x, In x l <-> In x l') -> existsb p l = existsb p l'.
Proof.
  intros Hsame. apply eq_true_iff_eq. rewrite !existsb_exists.
  split; intros (x & Hx & Hp); exists x; split; try exact Hp; apply Hsame; exact Hx.
Qed.

Lemma fold_lor_same_elements (confs confs' : list Z) :
  (forall c, In c confs <-> In c confs') ->
  fold_left Z.lor confs 0 = fold_left Z.lor confs' 0.
Proof.
  intros Hsame. apply Z.bits_inj'. intros n _.
  rewrite !fold_lor_testbit. f_equal. apply existsb_same_elements. exact Hsame.
Qed.

Section Handle.
Context {FP : Float64} {I2C : I2CDevice}.

(** X5 (Configure).  What [Configure] does depends on the set of its
    options only: two lists of options with the same elements, in any
    order and with any repetitions, give the same write, the same result
    and the same handle. *)
Theorem Configure_ignores_order_and_repetition
  (confs confs' : list Z) (ina : Ina226 FP I2C) :
  (forall c, In c confs <-> In c confs') ->
  Configure confs ina = Configure confs' ina.
Proof.
  intros Hsame. rewrite !Configure_run. cbv zeta.
  rewrite (fold_lor_same_elements confs confs' Hsame). reflexivity.
Qed.
(** X6 (the calibration variables).  [Configure], [Reset], a register
    read, [CurrentResolution], [ReadBusVoltage], [ReadShuntVoltage],
    [ReadShuntCurrentRegister] and [ReadShuntCurrent] leave the four
    calibration variables of the handle as they are, whatever the bus
    returns.  [Calibrate] sets [rShunt] and [iMax] to its parameters and
    leaves [vBusMax] and [vShuntMax] as they are: nothing in the package
    ever assigns these two. *)
Theorem calibration_changed_by_Calibrate_only
  (ina : Ina226 FP I2C) (confs : list Z) (reg : Z) (r i : float64) :
  calibration (snd (Configure confs ina)) = calibration ina /\
  calibration (snd (Reset ina)) = calibration ina /\
  calibration (snd (readRegister16 reg ina)) = calibration ina /\
  calibration (snd (CurrentResolution ina)) = calibration ina /\
  calibration (snd (ReadBusVoltage ina)) = calibration ina /\
  calibration (snd (ReadShuntVoltage ina)) = calibration ina /\
  calibration (snd (ReadShuntCurrentRegister ina)) = calibration ina /\
  calibration (snd (ReadShuntCurrent ina)) = calibration ina /\
  calibration (snd (Calibrate r i ina)) = (r, i, vBusMax ina, vShuntMax ina).
Proof.
  assert (Hcal : forall s : Ina226 FP I2C,
            calibration (snd (readCalibrationRegister s)) = calibration s).
  { intros s. unfold readCalibrationRegister, bind.
    pose proof (readRegister16_frame CALIBRATION_REG s) as H.
    destruct (readRegister16 CALIBRATION_REG s) as [[v [e|]] s']; exact H. }
  assert (Hres : forall s : Ina226 FP I2C,
            calibration (snd (CurrentResolution s)) = calibration s).
  { intros s. unfold CurrentResolution, bind, get.
    destruct (fle (rShunt s) (const 0.0)); [reflexivity|].
    pose proof (Hcal s) as H.
    destruct (readCalibrationRegister s) as [[v [e|]] s']; exact H. }
  assert (Hreg : forall s : Ina226 FP I2C,
            calibration (snd (ReadShuntCurrentRegister s)) = calibration s).
  { intros s. unfold ReadShuntCurrentRegister, bind.
    pose proof (readRegister16_frame CURRENT_REG s) as H.
    destruct (readRegister16 CURRENT_REG s) as [[v [e|]] s']; exact H. }
  repeat split.
  - rewrite Configure_run. reflexivity.
  - rewrite Reset_run. reflexivity.
  - apply readRegister16_frame.
  - apply Hres.
  - unfold ReadBusVoltage, bind.
    pose proof (readRegister16_frame BUSVOLTAGE_REG ina) as H.
    destruct (readRegister16 BUSVOLTAGE_REG ina) as [[v [e|]] s']; exact H.
  - unfold ReadShuntVoltage, bind.
    pose proof (readRegister16_frame SHUNTVOLTAGE_REG ina) as H.
    destruct (readRegister16 SHUNTVOLTAGE_REG ina) as [[v [e|]] s']; exact H.
  - apply Hreg.
  - unfold ReadShuntCurrent, bind.
    pose proof (Hreg ina) as H1.
    destruct (ReadShuntCurrentRegister ina) as [[raw [e|]] s1]; [exact H1|].
    pose proof (Hres s1) as H2. cbn [snd] in H1.
    destruct (CurrentResolution s1) as [[res [e|]] s2]; unfold ret;
      cbn [snd] in *; congruence.
  - rewrite Calibrate_run. reflexivity.
Qed.

(** X7 (ReadShuntCurrent).  On a handle whose shunt resistance is not
    [<= 0], [ReadShuntCurrent] reads the current register and then the
    calibration register; it stops at the first read that fails, with
    the value 0 and the error of that read; when both succeed it
    returns [int16(current) * (0.00512 / (calibration * rShunt))].  A
    call without error has made four bus operations: the write of the
    address and the read of two bytes for the current register, then
    the same for the calibration register. *)
Theorem ReadShuntCurrent_reads_current_then_calibration (ina : Ina226 FP I2C) :
  fle (rShunt ina) (const 0.0) = false ->
  ReadShuntCurrent ina =
    match readRegister16 CURRENT_REG ina with
    | ((_, Some e), ina1) => ((const 0, Some e), ina1)
    | ((currentRaw, None), ina1) =>
        match readRegister16 CALIBRATION_REG ina1 with
        | ((_, Some e), ina2) => ((const 0, Some e), ina2)
        | ((calibration, None), ina2) =>
            ((fmul (of_int (int16 currentRaw))
                (fdiv (const 0.00512)
                   (fmul (of_int calibration) (rShunt ina))), None), ina2)
        end
    end /\
  (snd (fst (ReadShuntCurrent ina)) = None ->
   trace (snd (ReadShuntCurrent ina)) =
     trace ina ++ [OpWrite [CURRENT_REG]; OpRead 2;
                   OpWrite [CALIBRATION_REG]; OpRead 2]).
Proof.
  intros Hle.
  assert (Heq : ReadShuntCurrent ina =
    match readRegister16 CURRENT_REG ina with
    | ((_, Some e), ina1) => ((const 0, Some e), ina1)
    | ((currentRaw, None), ina1) =>
        match readRegister16 CALIBRATION_REG ina1 with
        | ((_, Some e), ina2) => ((const 0, Some e), ina2)
        | ((calibration, None), ina2) =>
            ((fmul (of_int (int16 currentRaw))
                (fdiv (const 0.00512)
                   (fmul (of_int calibration) (rShunt ina))), None), ina2)
        end
    end).
  { unfold ReadShuntCurrent, ReadShuntCurrentRegister, bind.
    destruct (readRegister16_outcome CURRENT_REG ina) as (_ & Hr & _).
    destruct (readRegister16 CURRENT_REG ina) as [[raw [e|]] s1];
      cbn [fst snd ret] in *; [reflexivity|].
    rewrite CurrentResolution_calibrated by (rewrite Hr; exact Hle).
    rewrite Hr. unfold readCalibrationRegister, bind.
    destruct (readRegister16 CALIBRATION_REG s1) as [[cal [e|]] s2];
      reflexivity. }
  split; [exact Heq|].
  rewrite Heq.
  destruct (readRegister16_outcome CURRENT_REG ina) as (Hout1 & _).
  destruct (readRegister16 CURRENT_REG ina) as [[raw [e|]] s1];
    cbn [fst snd]; [discriminate|].
  destruct (readRegister16_outcome CALIBRATION_REG s1) as (Hout2 & _).
  destruct (readRegister16 CALIBRATION_REG s1) as [[cal [e|]] s2];
    cbn [fst snd]; [discriminate|].
  intros _. inversion Hout1 as [| |v1 s1' Hv1 Ht1]; subst.
  inversion Hout2 as [| |v2 s2' Hv2 Ht2]; subst.
  rewrite Ht2, Ht1, <- app_assoc. reflexivity.
Qed.

End Handle.

(** * The measurements on binary64 *)

Lemma for_all_bits_spec (k : nat) (p : Z -> bool) (prefix : Z) :
  for_all_bits k p prefix = true ->
  forall v : Z,
    prefix * 2 ^ Z.of_nat k <= v < (prefix + 1) * 2 ^ Z.of_nat k ->
    p v = true.
Proof.
  revert prefix. induction k as [|k IH]; intros prefix Hall v Hv.
  - cbn in Hall. change (2 ^ Z.of_nat 0) with 1 in Hv.
    replace v with prefix by lia. exact Hall.
  - cbn [for_all_bits] in Hall. apply andb_prop in Hall as [H0 H1].
    rewrite Nat2Z.inj_succ, Z.pow_succ_r in Hv by lia.
    assert (Hpos : 0 < 2 ^ Z.of_nat k) by (apply Z.pow_pos_nonneg; lia).
    destruct (Z_lt_le_dec v ((2 * prefix + 1) * 2 ^ Z.of_nat k)) as [Hlt|Hge].
    + apply (IH (2 * prefix) H0). nia.
    + apply (IH (2 * prefix + 1) H1). nia.
Qed.

Lemma bus_voltage_exact_all : for_all_bits 16 bus_voltage_exact 0 = true.
Proof. vm_compute. reflexivity. Qed.

Lemma shunt_voltage_close_all : for_all_bits 16 shunt_voltage_close 0 = true.
Proof. vm_compute. reflexivity. Qed.

Lemma b64_zero_times_positive (r : float) :
  PrimFloat.ltb 0 r = true -> PrimFloat.ltb r infinity = true ->
  PrimFloat.mul 0 r = 0%float.
Proof.
  rewrite !FloatAxioms.ltb_spec. intros Hpos Hfin.
  apply Prim2SF_inj. rewrite FloatAxioms.mul_spec.
  change (Prim2SF 0) with (S754_zero false) in *.
  change (Prim2SF infinity) with (S754_infinity false) in Hfin.
  destruct (Prim2SF r) as [s|s| |s m e]; try destruct s; cbn in *;
    try discriminate; reflexivity.
Qed.

Section Uncalibrated.
Context {FP : Float64} {I2C : I2CDevice}.

(** Without a positive shunt resistance no current is returned. *)
Lemma ReadShuntCurrent_uncalibrated_fails (ina : Ina226 FP I2C) :
  fle (rShunt ina) (const 0.0) = true ->
  snd (fst (ReadShuntCurrent ina)) <> None.
Proof.
  intros Hle.
  destruct (ReadShuntCurrentRegister_outcome ina) as (v & _ & Hr).
  unfold ReadShuntCurrent, bind.
  destruct (ReadShuntCurrentRegister ina) as [[raw [e|]] s]; cbn [fst snd] in *;
    [discriminate|].
  rewrite CurrentResolution_uncalibrated by (rewrite Hr; exact Hle).
  discriminate.
Qed.

End Uncalibrated.

Section Measurements.

Variable P : Platform.
Context {I2C : I2CDevice}.

Local Abbreviation FP := (binary64 P).

(** X9 (New).  When the device cannot be opened [New] returns no handle
    and the error.  Otherwise it returns a handle on that device on
    which nothing was sent yet and which is not calibrated:
    [CurrentResolution] returns 0 and the not-calibrated error without
    touching the bus, and [ReadShuntCurrent] returns an error. *)
Theorem New_handle_is_uncalibrated (dev : Device) :
  (forall code : Z,
     New (FP := FP) (dev, Some code) = (None, Some (TransportError code))) /\
  exists ina : Ina226 FP I2C,
    New (dev, None) = (Some ina, None) /\
    device ina = dev /\ trace ina = [] /\
    CurrentResolution ina =
      ((0%float, Some (@NotCalibratedError FP 0%float)), ina) /\
    snd (fst (ReadShuntCurrent ina)) <> None.
Proof.
  split; [reflexivity|].
  eexists. split; [reflexivity|]. split; [reflexivity|]. split; [reflexivity|].
  split.
  - apply (CurrentResolution_uncalibrated (FP := FP)). reflexivity.
  - apply (ReadShuntCurrent_uncalibrated_fails (FP := FP)). reflexivity.
Qed.

(** X10 (Calibrate, CurrentResolution, ReadShuntCurrent).  After
    [Calibrate(r, i)], whether its write succeeded or failed, a shunt
    resistance [r <= 0] leaves the handle not calibrated
    ([CurrentResolution] returns the not-calibrated error with [r],
    [ReadShuntCurrent] returns an error), and with [0 < r] the call of
    [CurrentResolution] never returns the not-calibrated error. *)
Theorem Calibrate_calibrates_iff_positive_shunt
  (r i : float) (ina : Ina226 FP I2C) :
  let ina' := snd (Calibrate (r : @float64 FP) i ina) in
  (PrimFloat.leb r 0 = true ->
   CurrentResolution ina' =
     ((0%float, Some (@NotCalibratedError FP r)), ina') /\
   snd (fst (ReadShuntCurrent ina')) <> None) /\
  (PrimFloat.ltb 0 r = true ->
   forall x : float,
     snd (fst (CurrentResolution ina')) <> Some (@NotCalibratedError FP x)).
Proof.
  intros ina'.
  assert (Hr : rShunt ina' = r).
  { unfold ina'. rewrite Calibrate_run. reflexivity. }
  split.
  - intros Hle. split.
    + pose proof (CurrentResolution_uncalibrated (FP := FP) ina') as Hun.
      rewrite Hr in Hun. exact (Hun Hle).
    + apply (ReadShuntCurrent_uncalibrated_fails (FP := FP)).
      rewrite Hr. exact Hle.
  - intros Hpos x.
    rewrite (CurrentResolution_calibrated (FP := FP) ina')
      by (rewrite Hr; apply b64_pos_not_le; exact Hpos).
    destruct (readRegister16_outcome CALIBRATION_REG ina') as (Hout & _).
    unfold readCalibrationRegister, bind.
    destruct (readRegister16 CALIBRATION_REG ina') as [[v [e|]] s];
      cbn [fst snd]; [|discriminate].
    inversion Hout; discriminate.
Qed.

(** X11 (CurrentResolution).  On a handle with a finite positive shunt
    resistance, a calibration register that reads 0 makes
    [CurrentResolution] return plus infinity and no error: the division
    of line 219 is a division by zero that nothing guards. *)
Theorem CurrentResolution_zero_calibration_is_infinite
  (ina ina' : Ina226 FP I2C) :
  PrimFloat.ltb 0 (rShunt ina) = true ->
  PrimFloat.ltb (rShunt ina) infinity = true ->
  readCalibrationRegister ina = ((0, None), ina') ->
  CurrentResolution ina = ((infinity, None), ina').
Proof.
  intros Hpos Hfin Hread.
  rewrite (CurrentResolution_calibrated (FP := FP) ina)
    by (apply b64_pos_not_le; exact Hpos).
  rewrite Hread. cbn [fmul fdiv of_int const binary64].
  change (float_of_Z 0) with 0%float.
  rewrite (b64_zero_times_positive _ Hpos Hfin). reflexivity.
Qed.

(** X12 (ReadBusVoltage).  For every value [v] read from the bus
    voltage register, [ReadBusVoltage] returns exactly [1.25 * v]: the
    binary64 product has no rounding error.  The value lies between 0
    and 81918.75. *)
Theorem ReadBusVoltage_exact
  (ina : Ina226 FP I2C) (v : Z) (ina' : Ina226 FP I2C) :
  readRegister16 BUSVOLTAGE_REG ina = ((v, None), ina') ->
  exists (x : float) (q : Q),
    ReadBusVoltage ina = ((x, None), ina') /\
    float_value x = Some q /\
    (q == 5 * v # 4)%Q /\
    (0 <= q)%Q /\ (q <= 81918.75)%Q.
Proof.
  intros Hread.
  destruct (readRegister16_outcome BUSVOLTAGE_REG ina) as (Hout & _).
  rewrite Hread in Hout. inversion Hout as [| |v' s Hv Htr]; subst.
  pose proof (for_all_bits_spec 16 bus_voltage_exact 0 bus_voltage_exact_all v)
    as Hex.
  change (2 ^ Z.of_nat 16) with 65536 in Hex. specialize (Hex ltac:(lia)).
  unfold bus_voltage_exact in Hex.
  destruct (float_value (PrimFloat.mul (float_of_Z v) 1.25)) as [q|] eqn:Eq;
    [|discriminate].
  apply Qeq_bool_iff in Hex.
  exists (PrimFloat.mul (float_of_Z v) 1.25), q.
  split; [unfold ReadBusVoltage, bind; rewrite Hread; reflexivity|].
  split; [exact Eq|]. split; [exact Hex|].
  split.
  - rewrite Hex. unfold Qle. cbn [Qnum Qden]. lia.
  - rewrite Hex. unfold Qle. cbn [Qnum Qden]. lia.
Qed.

(** X13 (ReadShuntVoltage).  For every value [v] read from the shunt
    voltage register, [ReadShuntVoltage] returns a finite value between
    the floats -81.92 and 81.9175 whose distance from [int16(v) / 400]
    (that is [int16(v) * 0.0025] without rounding) is at most [2^-52]
    times the size of that value. *)
Theorem ReadShuntVoltage_accurate
  (ina : Ina226 FP I2C) (v : Z) (ina' : Ina226 FP I2C) :
  readRegister16 SHUNTVOLTAGE_REG ina = ((v, None), ina') ->
  exists (x : float) (q : Q),
    ReadShuntVoltage ina = ((x, None), ina') /\
    PrimFloat.leb (-81.92) x = true /\ PrimFloat.leb x 81.9175 = true /\
    float_value x = Some q /\
    (Qabs (q - (int16 v # 400))
     <= (Z.abs (int16 v) # 400) * (1 # 4503599627370496))%Q.
Proof.
  intros Hread.
  destruct (readRegister16_outcome SHUNTVOLTAGE_REG ina) as (Hout & _).
  rewrite Hread in Hout. inversion Hout as [| |v' s Hv Htr]; subst.
  pose proof (for_all_bits_spec 16 shunt_voltage_close 0
                shunt_voltage_close_all v) as Hex.
  change (2 ^ Z.of_nat 16) with 65536 in Hex. specialize (Hex ltac:(lia)).
  unfold shunt_voltage_close in Hex. cbv zeta in Hex.
  apply andb_prop in Hex as [Hex Hq]. apply andb_prop in Hex as [Hlo Hhi].
  destruct (float_value (PrimFloat.mul (float_of_Z (int16 v)) 0.0025))
    as [q|] eqn:Eq; [|discriminate].
  apply Qle_bool_iff in Hq.
  exists (PrimFloat.mul (float_of_Z (int16 v)) 0.0025), q.
  split; [unfold ReadShuntVoltage, bind; rewrite Hread; reflexivity|].
  repeat split; assumption.
Qed.

End Measurements.

(** * The errors *)

Section Errors.
Context {FP : Float64} {I2C : I2CDevice}.


Lemma readRegister16_error_transport (reg : Z) (ina : Ina226 FP I2C) (e : error FP) :
  snd (fst (readRegister16 reg ina)) = Some e -> transport e.
Proof.
  destruct (readRegister16_outcome reg ina) as (Hout & _).
  destruct (readRegister16 reg ina) as [[v err] s]. cbn. intros ->.
  inversion Hout; subst; eexists; reflexivity.
Qed.

Lemma Configure_error_transport (confs : list Z) (ina : Ina226 FP I2C) (e : error FP) :
  fst (Configure confs ina) = Some e -> transport e.
Proof.
  rewrite Configure_run. cbn [fst]. unfold lift_err.
  destruct (snd (fst (Write _ _))) as [c|]; cbn; [|discriminate].
  intros [= <-]. eexists; reflexivity.
Qed.

Lemma ReadBusVoltage_error_transport (ina : Ina226 FP I2C) (e : error FP) :
  snd (fst (ReadBusVoltage ina)) = Some e -> transport e.
Proof.
  unfold ReadBusVoltage, bind.
  pose proof (readRegister16_error_transport BUSVOLTAGE_REG ina) as H.
  destruct (readRegister16 BUSVOLTAGE_REG ina) as [[v [e'|]] s]; cbn in *;
    [|discriminate].
  intros [= <-]. apply H. reflexivity.
Qed.

Lemma ReadShuntVoltage_error_transport (ina : Ina226 FP I2C) (e : error FP) :
  snd (fst (ReadShuntVoltage ina)) = Some e -> transport e.
Proof.
  unfold ReadShuntVoltage, bind.
  pose proof (readRegister16_error_transport SHUNTVOLTAGE_REG ina) as H.
  destruct (readRegister16 SHUNTVOLTAGE_REG ina) as [[v [e'|]] s]; cbn in *;
    [|discriminate].
  intros [= <-]. apply H. reflexivity.
Qed.

Lemma ReadShuntCurrentRegister_error_transport
  (ina : Ina226 FP I2C) (e : error FP) :
  snd (fst (ReadShuntCurrentRegister ina)) = Some e -> transport e.
Proof.
  unfold ReadShuntCurrentRegister, bind.
  pose proof (readRegister16_error_transport CURRENT_REG ina) as H.
  destruct (readRegister16 CURRENT_REG ina) as [[v [e'|]] s]; cbn in *;
    [|discriminate].
  intros [= <-]. apply H. reflexivity.
Qed.

Lemma CurrentResolution_error_transport (ina : Ina226 FP I2C) (e : error FP) :
  fle (rShunt ina) (const 0.0) = false ->
  snd (fst (CurrentResolution ina)) = Some e -> transport e.
Proof.
  intros Hle. rewrite (CurrentResolution_calibrated ina Hle).
  unfold readCalibrationRegister, bind.
  pose proof (readRegister16_error_transport CALIBRATION_REG ina) as H.
  destruct (readRegister16 CALIBRATION_REG ina) as [[v [e'|]] s]; cbn in *;
    [|discriminate].
  intros [= <-]. apply H. reflexivity.
Qed.

Lemma ReadShuntCurrent_error_transport (ina : Ina226 FP I2C) (e : error FP) :
  fle (rShunt ina) (const 0.0) = false ->
  snd (fst (ReadShuntCurrent ina)) = Some e -> transport e.
Proof.
  intros Hle. unfold ReadShuntCurrent, bind.
  pose proof (ReadShuntCurrentRegister_error_transport ina) as H1.
  destruct (ReadShuntCurrentRegister_outcome ina) as (v & _ & Hr).
  destruct (ReadShuntCurrentRegister ina) as [[raw [e1|]] s1]; cbn [fst snd] in *.
  - intros [= <-]. apply H1. reflexivity.
  - pose proof (CurrentResolution_error_transport s1) as H2.
    rewrite Hr in H2. specialize (H2 e Hle).
    destruct (CurrentResolution s1) as [[res [e2|]] s2]; cbn [fst snd] in *.
    + intros [= <-]. apply H2. reflexivity.
    + discriminate.
Qed.

Lemma CurrentResolution_rShunt (ina : Ina226 FP I2C) :
  rShunt (snd (CurrentResolution ina)) = rShunt ina.
Proof.
  unfold CurrentResolution, bind, get.
  destruct (fle (rShunt ina) (const 0.0)); [reflexivity|].
  unfold readCalibrationRegister, bind.
  destruct (readRegister16_outcome CALIBRATION_REG ina) as (_ & Hr & _).
  destruct (readRegister16 CALIBRATION_REG ina) as [[v [e|]] s]; exact Hr.
Qed.

(** X8 (the errors of the package).  An error returned by [Configure],
    [Reset], [Calibrate], [readRegister16], [ReadBusVoltage],
    [ReadShuntVoltage] or [ReadShuntCurrentRegister] is an error of the
    I2C transport.  An error returned by [CurrentResolution] or
    [ReadShuntCurrent] is an error of the transport or the
    not-calibrated error with the shunt resistance of the handle, and
    the latter only on a handle whose shunt resistance is [<= 0]. *)
Theorem errors_are_transport_or_not_calibrated
  (ina : Ina226 FP I2C) (confs : list Z) (reg : Z) (r i : float64)
  (e : error FP) :
  (fst (Configure confs ina) = Some e -> transport e) /\
  (fst (Reset ina) = Some e -> transport e) /\
  (fst (Calibrate r i ina) = Some e -> transport e) /\
  (snd (fst (readRegister16 reg ina)) = Some e -> transport e) /\
  (snd (fst (ReadBusVoltage ina)) = Some e -> transport e) /\
  (snd (fst (ReadShuntVoltage ina)) = Some e -> transport e) /\
  (snd (fst (ReadShuntCurrentRegister ina)) = Some e -> transport e) /\
  (snd (fst (CurrentResolution ina)) = Some e ->
   transport e \/
   (e = NotCalibratedError (rShunt ina) /\
    fle (rShunt ina) (const 0.0) = true)) /\
  (snd (fst (ReadShuntCurrent ina)) = Some e ->
   transport e \/
   (e = NotCalibratedError (rShunt ina) /\
    fle (rShunt ina) (const 0.0) = true)).
Proof.
  assert (Hlift : forall o : option Z, lift_err (FP := FP) o = Some e -> transport e).
  { intros [c|]; cbn; [|discriminate]. intros [= <-]. eexists; reflexivity. }
  repeat split.
  - apply Configure_error_transport.
  - rewrite Reset_run. apply Hlift.
  - rewrite Calibrate_run. apply Hlift.
  - apply readRegister16_error_transport.
  - apply ReadBusVoltage_error_transport.
  - apply ReadShuntVoltage_error_transport.
  - apply ReadShuntCurrentRegister_error_transport.
  - destruct (fle (rShunt ina) (const 0.0)) eqn:Hle.
    + rewrite (CurrentResolution_uncalibrated ina Hle). cbn.
      intros [= <-]. right. split; reflexivity.
    + intros He. left.
      exact (CurrentResolution_error_transport ina e Hle He).
  - destruct (fle (rShunt ina) (const 0.0)) eqn:Hle.
    + unfold ReadShuntCurrent, bind.
      pose proof (ReadShuntCurrentRegister_error_transport ina) as H1.
      destruct (ReadShuntCurrentRegister_outcome ina) as (v & _ & Hr).
      destruct (ReadShuntCurrentRegister ina) as [[raw [e1|]] s1];
        cbn [fst snd] in *.
      * intros [= <-]. left. apply H1. reflexivity.
      * rewrite CurrentResolution_uncalibrated by (rewrite Hr; exact Hle).
        cbn. rewrite Hr. intros [= <-]. right. split; reflexivity.
    + intros He. left.
      exact (ReadShuntCurrent_error_transport ina e Hle He).
Qed.

End Errors.


(** * The example program *)

Section ExampleFacts.

Variable P : Platform.
Context {I2C : I2CDevice}.

Local Abbreviation FP := (binary64 P).

(** X17 (main of examples/simple_IV_read).  The example program prints
    its lines in the order bus voltage, shunt voltage, current
    resolution, current register, current; it prints all five and ends,
    or it stops after fewer than five with [log.Fatal] of an error of
    the transport.  It never stops with the not-calibrated error,
    although it does not look at the result of [Calibrate]. *)
Theorem main_prints_in_order_or_dies_on_transport (opened : Device * option Z) :
  exists (lines tail : list (Event P)),
    main P opened = lines ++ tail /\
    map (text_of P) lines = map Some (firstn (length lines) example_lines) /\
    ((length lines = 5%nat /\ tail = []) \/
     ((length lines < 5)%nat /\
      exists code : Z, tail = [Fatal P (TransportError code)])).
Proof.
  destruct opened as [dev [code|]].
  - exists [], [Fatal P (TransportError code)]. cbn.
    split; [reflexivity|]. split; [reflexivity|]. right. split; [lia | eauto].
  - unfold main. cbn [New].
    set (s0 := mkIna226 dev [] (const 0) (const 0) (const 0) (const 0)).
    pose proof (Configure_error_transport (FP := FP)
      [INA226_SHUNT_CONV_TIME_1100US; INA226_BUS_CONV_TIME_1100US;
       INA226_AVERAGES_1; INA226_MODE_SHUNT_BUS_CONT] s0) as H1.
    destruct (Configure _ s0) as [[e1|] s1]; cbn [fst] in H1.
    { destruct (H1 e1 eq_refl) as [c ->].
      exists [], [Fatal P (TransportError c)].
      split; [reflexivity|]. split; [reflexivity|]. right. split; [cbn; lia | eauto]. }
    pose proof (ReadBusVoltage_error_transport (FP := FP) s1) as H2.
    destruct (ReadBusVoltage s1) as [[vBus [e2|]] s2]; cbn [fst snd] in H2.
    { destruct (H2 e2 eq_refl) as [c ->].
      exists [], [Fatal P (TransportError c)].
      split; [reflexivity|]. split; [reflexivity|]. right. split; [cbn; lia | eauto]. }
    pose proof (ReadShuntVoltage_error_transport (FP := FP) s2) as H3.
    destruct (ReadShuntVoltage s2) as [[vShunt [e3|]] s3]; cbn [fst snd] in H3.
    { destruct (H3 e3 eq_refl) as [c ->].
      eexists [_], [Fatal P (TransportError c)].
      split; [reflexivity|]. split; [reflexivity|]. right. split; [cbn; lia | eauto]. }
    pose proof (Calibrate_run (FP := FP) (0.01%float : @float64 FP) 0.5%float s3)
      as Hcal. cbv zeta in Hcal.
    destruct (Calibrate (0.01%float : @float64 FP) 0.5%float s3) as [ecal s4].
    assert (Hr4 : rShunt s4 = 0.01%float) by (inversion Hcal; reflexivity).
    clear Hcal.
    assert (Hle4 : fle (rShunt s4) (const (Float64 := FP) 0.0) = false)
      by (rewrite Hr4; reflexivity).
    pose proof (CurrentResolution_error_transport (FP := FP) s4) as H5.
    pose proof (CurrentResolution_rShunt (FP := FP) s4) as Hr5.
    destruct (CurrentResolution s4) as [[iResolution [e5|]] s5];
      cbn [fst snd] in H5, Hr5.
    { destruct (H5 e5 Hle4 eq_refl) as [c ->].
      eexists [_; _], [Fatal P (TransportError c)].
      split; [reflexivity|]. split; [reflexivity|]. right. split; [cbn; lia | eauto]. }
    pose proof (ReadShuntCurrentRegister_error_transport (FP := FP) s5) as H6.
    destruct (ReadShuntCurrentRegister_outcome (FP := FP) s5) as (v6 & _ & Hr6).
    destruct (ReadShuntCurrentRegister s5) as [[iRegister [e6|]] s6];
      cbn [fst snd] in H6, Hr6.
    { destruct (H6 e6 eq_refl) as [c ->].
      eexists [_; _; _], [Fatal P (TransportError c)].
      split; [reflexivity|]. split; [reflexivity|]. right. split; [cbn; lia | eauto]. }
    assert (Hle6 : fle (rShunt s6) (const (Float64 := FP) 0.0) = false)
      by (rewrite Hr6, Hr5; exact Hle4).
    pose proof (ReadShuntCurrent_error_transport (FP := FP) s6) as H7.
    destruct (ReadShuntCurrent s6) as [[iShunt [e7|]] s7]; cbn [fst snd] in H7.
    { destruct (H7 e7 Hle6 eq_refl) as [c ->].
      eexists [_; _; _; _], [Fatal P (TransportError c)].
      split; [reflexivity|]. split; [reflexivity|]. right. split; [cbn; lia | eauto]. }
    eexists [_; _; _; _; _], [].
    split; [reflexivity|]. split; [reflexivity|]. left. split; reflexivity.
Qed.

End ExampleFacts.


(** * The properties on the scripted chip *)

Lemma readRegister16_big_endian_witness :
  let ina := handle 0x1234 [] 0 in
  let data := [0x12; 0x34] in
  fst (readRegister16 CONFIG_REG ina) =
    (256 * byte (nth 0 data 0) + byte (nth 1 data 0), None) /\
  (data = [] -> fst (readRegister16 CONFIG_REG ina) = (0, None)) /\
  (forall a : Z, data = [a] ->
     fst (readRegister16 CONFIG_REG ina) = (256 * byte a, None)).
Proof.
  exact (readRegister16_big_endian CONFIG_REG (handle 0x1234 [] 0) 1
           (snd (Write (device (handle 0x1234 [] 0)) [CONFIG_REG]))
           [0x12; 0x34] 2
           (snd (Write (device (handle 0x1234 [] 0)) [CONFIG_REG]))
           eq_refl eq_refl).
Defined.

Lemma register_round_trip_witness :
  fst (readRegister16 CALIBRATION_REG (handle 25600 [] 0)) = (25600, None).
Proof.
  exact (register_round_trip CALIBRATION_REG 25600 (handle 25600 [] 0) 1
           (snd (Write (device (handle 25600 [] 0)) [CALIBRATION_REG])) 2
           (snd (Write (device (handle 25600 [] 0)) [CALIBRATION_REG]))
           ltac:(lia) eq_refl eq_refl).
Defined.

Lemma Configure_ignores_order_and_repetition_witness :
  Configure [INA226_AVERAGES_4; INA226_MODE_SHUNT_CONT; INA226_AVERAGES_4]
    (handle 0 [] 0) =
  Configure [INA226_MODE_SHUNT_CONT; INA226_AVERAGES_4] (handle 0 [] 0).
Proof.
  apply Configure_ignores_order_and_repetition.
  intros c. cbn. tauto.
Defined.

Lemma ReadShuntCurrent_reads_current_then_calibration_witness :
  fst (ReadShuntCurrent (handle 128 [] 0.01)) = (0.512%float, None) /\
  trace (snd (ReadShuntCurrent (handle 128 [] 0.01))) =
    [OpWrite [CURRENT_REG]; OpRead 2; OpWrite [CALIBRATION_REG]; OpRead 2].
Proof.
  pose proof (ReadShuntCurrent_reads_current_then_calibration
                (handle 128 [] 0.01) eq_refl) as [Heq Htr].
  split.
  - rewrite Heq. reflexivity.
  - exact (Htr eq_refl).
Defined.

Lemma CurrentResolution_zero_calibration_is_infinite_witness :
  CurrentResolution (handle 0 [] 0.01) =
    ((infinity, None), snd (readCalibrationRegister (handle 0 [] 0.01))).
Proof.
  exact (CurrentResolution_zero_calibration_is_infinite GoMath.platform
           (handle 0 [] 0.01) (snd (readCalibrationRegister (handle 0 [] 0.01)))
           eq_refl eq_refl eq_refl).
Defined.

Lemma ReadBusVoltage_exact_witness :
  exists (x : float) (q : Q),
    ReadBusVoltage (handle 1000 [] 0) =
      ((x, None), snd (readRegister16 BUSVOLTAGE_REG (handle 1000 [] 0))) /\
    float_value x = Some q /\
    (q == 5 * 1000 # 4)%Q /\ (0 <= q)%Q /\ (q <= 81918.75)%Q.
Proof.
  exact (ReadBusVoltage_exact GoMath.platform (handle 1000 [] 0) 1000
           (snd (readRegister16 BUSVOLTAGE_REG (handle 1000 [] 0))) eq_refl).
Defined.

Lemma ReadShuntVoltage_accurate_witness :
  exists (x : float) (q : Q),
    ReadShuntVoltage (handle 0xFFFF [] 0) =
      ((x, None), snd (readRegister16 SHUNTVOLTAGE_REG (handle 0xFFFF [] 0))) /\
    PrimFloat.leb (-81.92) x = true /\ PrimFloat.leb x 81.9175 = true /\
    float_value x = Some q /\
    (Qabs (q - (int16 0xFFFF # 400))
     <= (Z.abs (int16 0xFFFF) # 400) * (1 # 4503599627370496))%Q.
Proof.
  exact (ReadShuntVoltage_accurate GoMath.platform (handle 0xFFFF [] 0) 0xFFFF
           (snd (readRegister16 SHUNTVOLTAGE_REG (handle 0xFFFF [] 0))) eq_refl).
Defined.

Lemma accessors_read_one_register_witness :
  let ina := handle 0xFFFF [true] 0 in
  snd (fst (ReadBusVoltage ina)) = Some (TransportError 5) /\
  fst (fst (ReadBusVoltage ina)) = 0%float /\
  fst (fst (ReadShuntVoltage ina)) = 0%float /\
  fst (fst (ReadShuntCurrentRegister ina)) = 0.
Proof.
  pose proof (accessors_read_one_register (handle 0xFFFF [true] 0))
    as ((_ & _ & Hbus) & (_ & _ & Hshunt) & (_ & _ & _ & Hcur)).
  cbv zeta. split; [reflexivity|]. split; [|split].
  - apply Hbus.
    change (Some (@TransportError (binary64 GoMath.platform) 5) <> None).
    discriminate.
  - apply Hshunt.
    change (Some (@TransportError (binary64 GoMath.platform) 5) <> None).
    discriminate.
  - apply Hcur.
    change (Some (@TransportError (binary64 GoMath.platform) 5) <> None).
    discriminate.
Defined.

Lemma errors_are_transport_or_not_calibrated_witness :
  fst (Configure [] (handle 0 [true] 0)) = Some (TransportError 5) /\
  transport (@TransportError (binary64 GoMath.platform) 5) /\
  snd (fst (CurrentResolution (handle 0 [] 0))) =
    Some (@NotCalibratedError (binary64 GoMath.platform) 0%float) /\
  PrimFloat.leb (rShunt (handle 0 [] 0)) 0 = true.
Proof.
  pose proof (errors_are_transport_or_not_calibrated
                (handle 0 [true] 0) [] 0 0%float 0%float (TransportError 5))
    as (Hconf & _).
  pose proof (errors_are_transport_or_not_calibrated
                (handle 0 [] 0) [] 0 0%float 0%float
                (@NotCalibratedError (binary64 GoMath.platform) 0%float))
    as (_ & _ & _ & _ & _ & _ & _ & Hres & _).
  split; [reflexivity|]. split; [exact (Hconf eq_refl)|].
  split; [reflexivity|].
  destruct (Hres eq_refl) as [[code Ht] | [_ Hle]];
    [discriminate Ht | exact Hle].
Defined.

Lemma Calibrate_calibrates_iff_positive_shunt_witness :
  (let ina' := snd (Calibrate (0%float : @float64 (binary64 GoMath.platform))
                      0.5%float (handle 0 [] 0.01)) in
   CurrentResolution ina' =
     ((0%float, Some (@NotCalibratedError (binary64 GoMath.platform) 0%float)),
      ina') /\
   snd (fst (ReadShuntCurrent ina')) <> None) /\
  (forall x : float,
     snd (fst (CurrentResolution
                 (snd (Calibrate (0.01%float : @float64 (binary64 GoMath.platform))
                         0.5%float (handle 0 [] 0))))) <>
     Some (@NotCalibratedError (binary64 GoMath.platform) x)).
Proof.
  split.
  - exact (proj1 (Calibrate_calibrates_iff_positive_shunt GoMath.platform
                    0%float 0.5%float (handle 0 [] 0.01)) eq_refl).
  - exact (proj2 (Calibrate_calibrates_iff_positive_shunt GoMath.platform
                    0.01%float 0.5%float (handle 0 [] 0)) eq_refl).
Defined.

(** The example program on a chip whose registers hold 128: the five
    lines and their values. *)
Example main_on_the_scripted_chip :
  map (shown GoMath.platform)
      (main GoMath.platform (I2C := chip) (Chip.holding 128 [], None)) =
  map Some example_output.
Proof. vm_compute. reflexivity. Qed.

(** The example program when the second access of the bus fails: the
    configuration is written, the bus voltage is not read, nothing is
    printed. *)
Example main_on_a_failing_bus :
  main GoMath.platform (I2C := chip) (Chip.holding 128 [false; true], None) =
  [Fatal GoMath.platform (TransportError 5)].
Proof. reflexivity. Qed.

(** The example program when the device cannot be opened. *)
Example main_without_device :
  main GoMath.platform (I2C := chip) (Chip.holding 0 [], Some 2) =
  [Fatal GoMath.platform (TransportError 2)].
Proof. reflexivity. Qed.
